(** * mathrepl: the line evaluator of [mathrepl.c]

    A shallow embedding of the lexer ([get_token]), the symbol table
    ([get_identifier], [set_identifier]), the precedence table ([get_prec])
    and the two-state operator-precedence evaluator ([evaluate_line]),
    followed by the properties of the specification that were checked
    against them.

    Conventions of the embedding.
    - A C [double] is a binary64 value of Rocq's primitive floats; the
      operators [+ - * /], unary [-], [== 0.0] and [< 0.0] are the IEEE
      ones of [PrimFloat].
    - The line is the list of its bytes; the byte at an offset that is
      not below the length reads as the terminating NUL.  A pointer into
      the line ([it], [res.name]) is its offset from [line].
    - [uint16_t], [uint32_t] and [uint8_t] fields are integers of [Z] with
      the wrap-around of the conversion written out.
    - The arrays [opers] and [stack] are lists whose head is the slot
      below the size ([opers[opers_size-1]], [stack[stack_size-1]]) and
      whose length is the size; an access outside the 64 declared slots is
      recorded as the outcome [Undefined].
    - [pow] and [tgamma] of [<math.h>] are parameters of the evaluator. *)

From Stdlib Require Import ZArith List Ascii String Floats Lia Bool Arith.
Import ListNotations.

#[local] Open Scope Z_scope.

(** ** Fixed-width unsigned conversions *)

Definition uint8 (x : Z) : Z := x mod 2 ^ 8.
Definition uint16 (x : Z) : Z := x mod 2 ^ 16.
Definition uint32 (x : Z) : Z := x mod 2 ^ 32.

(** ** Tokens *)

Inductive NodeType : Set :=
| NT_Global
| NT_Newline
| NT_Error
| NT_OpenPar
| NT_ClosePar
| NT_Identifier
| NT_Number
| NT_Minus
| NT_Add
| NT_Subtract
| NT_Multiply
| NT_Divide
| NT_Power
| NT_Factorial.

Definition NodeType_eqb (a b : NodeType) : bool :=
  match a, b with
  | NT_Global, NT_Global | NT_Newline, NT_Newline | NT_Error, NT_Error
  | NT_OpenPar, NT_OpenPar | NT_ClosePar, NT_ClosePar
  | NT_Identifier, NT_Identifier | NT_Number, NT_Number
  | NT_Minus, NT_Minus | NT_Add, NT_Add | NT_Subtract, NT_Subtract
  | NT_Multiply, NT_Multiply | NT_Divide, NT_Divide | NT_Power, NT_Power
  | NT_Factorial, NT_Factorial => true
  | _, _ => false
  end.

(** The anonymous union of [struct Node]: the member that was last
    written.  [zero] is the all-zero union of [Node res = {0}]. *)
Inductive NodeUnion : Set :=
| U_zero
| U_name (name : nat)
| U_error (error : string)
| U_real (real : float).

Record Node : Set := mkNode {
  type : NodeType;
  size : Z;
  pos : Z;
  payload : NodeUnion
}.

Definition Node_name (n : Node) : nat :=
  match payload n with U_name p => p | _ => 0%nat end.
Definition Node_error (n : Node) : string :=
  match payload n with U_error m => m | _ => EmptyString end.
Definition Node_real (n : Node) : float :=
  match payload n with U_real r => r | _ => 0%float end.

Definition set_type (n : Node) (t : NodeType) : Node :=
  mkNode t (size n) (pos n) (payload n).

(** ** Characters *)

#[local] Open Scope char_scope.

Definition NUL : ascii := "000".
Definition LF : ascii := "010".
Definition TAB : ascii := "009".

Definition is_character (c : ascii) : bool :=
  (("A" <=? c) && (c <=? "Z")) || (("a" <=? c) && (c <=? "z")).

Definition is_alnum (c : ascii) : bool :=
  (("A" <=? c) && (c <=? "Z")) || (("a" <=? c) && (c <=? "z"))
  || (("0" <=? c) && (c <=? "9")).

Definition is_digit (c : ascii) : bool := ("0" <=? c) && (c <=? "9").

Definition is_blank (c : ascii) : bool := (c =? " ") || (c =? TAB).

(** Number of leading bytes of [s] that satisfy [p]: how far a
    [while (p( *it)) it += 1;] loop advances.  The terminating NUL
    satisfies none of the predicates used, so the end of the list stops
    the scan as the NUL does. *)
Fixpoint span_len (p : ascii -> bool) (s : list ascii) : nat :=
  match s with
  | c :: s' => if p c then S (span_len p s') else 0%nat
  | [] => 0%nat
  end.

(** ** [strtod]

    The C library function, for a subject that starts with a decimal
    digit (the only way [get_token] calls it): a decimal literal
    (digits, optional [.] and digits, optional exponent [e]/[E] with an
    optional sign and at least one digit), or a hexadecimal one ([0x],
    hexadecimal digits with an optional [.], at least one digit, optional
    binary exponent [p]/[P]).  The result is the literal's value rounded
    to nearest-even, and the number of bytes consumed ([endptr - nptr]). *)

Definition is_xdigit (c : ascii) : bool :=
  is_digit c || (("a" <=? c) && (c <=? "f")) || (("A" <=? c) && (c <=? "F")).

Definition digit_value (c : ascii) : Z :=
  let n := Z.of_N (N_of_ascii c) in
  if is_digit c then n - 48
  else if ("a" <=? c) && (c <=? "f") then n - 87
  else n - 55.

Definition digits_value (base : Z) (ds : list ascii) : Z :=
  fold_left (fun acc c => acc * base + digit_value c) ds 0.

(** Integer digits, fraction digits and length of the longest
    [digits [. digits]] prefix. *)
Definition scan_mantissa (p : ascii -> bool) (s : list ascii)
  : list ascii * list ascii * nat :=
  let ni := span_len p s in
  match skipn ni s with
  | "." :: s' =>
      let nf := span_len p s' in
      (firstn ni s, firstn nf s', (ni + 1 + nf)%nat)
  | _ => (firstn ni s, [], ni)
  end.

(** Value and length of an exponent part [mark [sign] digits] at the
    head of [s]; length 0 when there is none. *)
Definition scan_exponent (mark : ascii -> bool) (s : list ascii) : Z * nat :=
  match s with
  | c :: s' =>
      if mark c then
        let '(neg, ds, k) :=
          match s' with
          | "-" :: s'' => (true, s'', 2%nat)
          | "+" :: s'' => (false, s'', 2%nat)
          | _ => (false, s', 1%nat)
          end in
        let ne := span_len is_digit ds in
        if (ne =? 0)%nat then (0, 0%nat)
        else
          let e := digits_value 10 (firstn ne ds) in
          (if neg then - e else e, (k + ne)%nat)
      else (0, 0%nat)
  | [] => (0, 0%nat)
  end.

(** [n / d] rounded to the nearest binary64. *)
Definition double_of_ratio (n d : Z) : float :=
  match n, d with
  | Zpos n', Zpos d' =>
      SF2Prim (SFdiv prec emax (S754_finite false n' 0) (S754_finite false d' 0))
  | _, _ => 0%float
  end.

Definition strtod_decimal (s : list ascii) : float * nat :=
  let '(ip, fp, n1) := scan_mantissa is_digit s in
  let '(e, n2) := scan_exponent (fun c => (c =? "e") || (c =? "E")) (skipn n1 s) in
  let m := digits_value 10 (ip ++ fp) in
  let e10 := e - Z.of_nat (List.length fp) in
  (double_of_ratio (m * 10 ^ Z.max e10 0) (10 ^ Z.max (- e10) 0), (n1 + n2)%nat).

Definition strtod (s : list ascii) : float * nat :=
  match s with
  | "0" :: x :: s' =>
      if (x =? "x") || (x =? "X") then
        let '(ip, fp, n1) := scan_mantissa is_xdigit s' in
        if (List.length ip + List.length fp =? 0)%nat then strtod_decimal s
        else
          let '(e, n2) := scan_exponent (fun c => (c =? "p") || (c =? "P")) (skipn n1 s') in
          let m := digits_value 16 (ip ++ fp) in
          (SF2Prim (binary_normalize prec emax m (e - 4 * Z.of_nat (List.length fp)) false),
           (2 + n1 + n2)%nat)
      else strtod_decimal s
  | _ => strtod_decimal s
  end.

(** ** The lexer *)

Definition get_token (line : list ascii) (iter : nat) : Node * nat :=
  let it := (iter + span_len is_blank (skipn iter line))%nat in
  let res_pos := uint32 (Z.of_nat it) in
  let c := nth it line NUL in
  if (c =? NUL) || (c =? LF) then (mkNode NT_Newline 0 res_pos U_zero, (it + 1)%nat)
  else if is_digit c then
    let '(r, n) := strtod (skipn it line) in
    (mkNode NT_Number 0 res_pos (U_real r), (it + n)%nat)
  else if c =? "(" then (mkNode NT_OpenPar 0 res_pos U_zero, (it + 1)%nat)
  else if c =? ")" then (mkNode NT_ClosePar 0 res_pos U_zero, (it + 1)%nat)
  else if c =? "+" then (mkNode NT_Add 0 res_pos U_zero, (it + 1)%nat)
  else if c =? "-" then (mkNode NT_Subtract 0 res_pos U_zero, (it + 1)%nat)
  else if c =? "*" then (mkNode NT_Multiply 0 res_pos U_zero, (it + 1)%nat)
  else if c =? "/" then (mkNode NT_Divide 0 res_pos U_zero, (it + 1)%nat)
  else if c =? "^" then (mkNode NT_Power 0 res_pos U_zero, (it + 1)%nat)
  else if c =? "!" then (mkNode NT_Factorial 0 res_pos U_zero, (it + 1)%nat)
  else if is_character c then
    let it' := (it + 1 + span_len is_alnum (skipn (it + 1) line))%nat in
    let res_size := uint16 (Z.of_nat (it' - it)) in
    if (64 <? res_size)%Z
    then (mkNode NT_Error res_size res_pos (U_error "identifier name too long"%string), it')
    else (mkNode NT_Identifier res_size res_pos (U_name it), it')
  else (mkNode NT_Error 0 res_pos (U_error "unrecognized token"%string), it).

#[local] Close Scope char_scope.

#[local] Open Scope string_scope.
#[local] Open Scope list_scope.
#[local] Open Scope Z_scope.

(** ** Values *)

Inductive DataType : Set :=
| DT_Void
| DT_Error
| DT_Real.

(** [struct Value] as the tagged union it is used as: the [type] tag
    selects the member.  [size] is kept for [DT_Error] only, the one kind
    for which the program writes and reads it (the offset of the fault). *)
Inductive Value : Set :=
| Void
| Error (size : Z) (error : string)
| Real (real : float).

Definition Value_type (v : Value) : DataType :=
  match v with
  | Void => DT_Void
  | Error _ _ => DT_Error
  | Real _ => DT_Real
  end.

(** ** The symbol table *)

Definition SYMBOL_CAPACITY : nat := 64.

(** Slot [i] of the three parallel arrays [names], [name_sizes] and
    [values]. *)
Record Symbol : Set := mkSymbol {
  names : list ascii;
  name_sizes : Z;
  values : Value
}.

(** The slots below [symbol_count], in index order; [symbol_count] is
    the length.  Slots at and above [symbol_count] are never read. *)
Definition SymbolTable : Set := list Symbol.

Definition symbol_count (symbols : SymbolTable) : nat := List.length symbols.

(** [memcmp(a, b, n) == 0]. *)
Fixpoint memcmp_eq (a b : list ascii) (n : nat) : bool :=
  match n with
  | O => true
  | S n' => Ascii.eqb (hd NUL a) (hd NUL b) && memcmp_eq (tl a) (tl b) n'
  end.

(** The test both table functions apply to slot [s]. *)
Definition slot_matches (s : Symbol) (name : list ascii) (name_size : Z) : bool :=
  (name_sizes s =? name_size) && memcmp_eq (names s) name (Z.to_nat name_size).

Fixpoint get_identifier (symbols : SymbolTable) (name : list ascii) (name_size : Z)
  : Value :=
  match symbols with
  | [] => Error 0 "identifier not found"
  | s :: symbols' =>
      if slot_matches s name name_size then values s
      else get_identifier symbols' name name_size
  end.

(** What a call of [set_identifier] does to the table: [Stored] is the
    table after the call; [Store_outside count] is the call that reaches
    the appending stores with [count >= SYMBOL_CAPACITY], which write
    [names[count]], [name_sizes[count]] and [values[count]] outside the
    arrays. *)
Inductive SetResult : Set :=
| Stored (symbols : SymbolTable)
| Store_outside (count : nat).

(** The search loop of [set_identifier]: the table with the first
    matching slot's value replaced, or [None] when the loop runs out. *)
Fixpoint overwrite (symbols : SymbolTable) (name : list ascii) (name_size : Z)
  (value : Value) : option SymbolTable :=
  match symbols with
  | [] => None
  | s :: symbols' =>
      if slot_matches s name name_size
      then Some (mkSymbol (names s) (name_sizes s) value :: symbols')
      else option_map (cons s) (overwrite symbols' name name_size value)
  end.

Definition set_identifier (symbols : SymbolTable) (name : list ascii)
  (name_size : Z) (value : Value) : SetResult :=
  match overwrite symbols name name_size value with
  | Some symbols' => Stored symbols'
  | None =>
      let count := symbol_count symbols in
      if (count <? SYMBOL_CAPACITY)%nat
      then Stored (symbols ++ [mkSymbol name (uint8 name_size) value])
      else Store_outside count
  end.

(** ** Precedence *)

Record Precedence : Set := mkPrecedence {
  left : Z;
  right : Z
}.

Definition get_prec (oper_type : NodeType) : Precedence :=
  match oper_type with
  | NT_Newline => mkPrecedence 1 0
  | NT_Global => mkPrecedence 0 0
  | NT_ClosePar => mkPrecedence 1 0
  | NT_OpenPar => mkPrecedence 99 0
  | NT_Minus => mkPrecedence 59 59
  | NT_Add => mkPrecedence 50 50
  | NT_Subtract => mkPrecedence 50 50
  | NT_Multiply => mkPrecedence 55 55
  | NT_Divide => mkPrecedence 55 55
  | NT_Power => mkPrecedence 61 60
  | NT_Factorial => mkPrecedence 62 62
  | _ => mkPrecedence 255 255
  end.

(** ** The evaluator *)

(** An array access outside the declared 64 slots (the index is the
    [size_t] value used), or the read of a slot never written. *)
Inductive Fault : Set :=
| Opers_index (i : Z)
| Stack_index (i : Z)
| Stack_unwritten (i : Z).

(** How a call of [evaluate_line] ends: [return v], [exit(status)] after
    the "broken parser" message, or an access with no defined behaviour. *)
Inductive Outcome : Set :=
| Return (v : Value)
| Exit (status : Z)
| Undefined (f : Fault).

Definition ERROR_VALUE (msg : string) (pos : Z) : Value := Error (uint16 pos) msg.

(** The [size_t] value of [size - k]. *)
Definition below (size : nat) (k : Z) : Z := (Z.of_nat size - k) mod 2 ^ 64.

Inductive Label : Set :=
| L_ExpectValue
| L_ExpectOperator.

(** The locals of [evaluate_line] that live across the labels. *)
Record State : Set := mkState {
  it : nat;
  opers : list Node;
  stack : list Value
}.

(** [opers[opers_size] = curr; opers_size += 1;] *)
Definition push_oper (curr : Node) (opers : list Node) : Outcome + list Node :=
  if (List.length opers <? 64)%nat then inr (curr :: opers)
  else inl (Undefined (Opers_index (below (List.length opers) 0))).

(** [stack[stack_size] = v; stack_size += 1;] *)
Definition push_value (v : Value) (stack : list Value) : Outcome + list Value :=
  if (List.length stack <? 64)%nat then inr (v :: stack)
  else inl (Undefined (Stack_index (below (List.length stack) 0))).

(** The operand test of the five binary cases,
    [stack[stack_size-1].type != DT_Real || stack[stack_size-2].type != DT_Real],
    evaluated left to right: the left operand, the right operand and the
    slots below them when both are real. *)
Definition binary_operands (oper : Node) (stack : list Value)
  : Outcome + (float * float * list Value) :=
  match stack with
  | [] => inl (Undefined (Stack_index (below 0 1)))
  | Real b :: Real a :: stack' => inr (a, b, stack')
  | Real _ :: [] => inl (Undefined (Stack_index (below 1 2)))
  | _ => inl (Return (ERROR_VALUE "wrong data type" (pos oper)))
  end.

Section Evaluator.

Variable pow : float -> float -> float.
Variable tgamma : float -> float.

(** One pass through the [switch] of the fold loop for the popped
    operator [oper]: the value stack after it, or the way the call ends. *)
Definition fold_oper (oper : Node) (stack : list Value) : Outcome + list Value :=
  match type oper with
  | NT_Minus =>
      match stack with
      | [] => inl (Undefined (Stack_index (below 0 1)))
      | Real r :: stack' => inr (Real (- r) :: stack')
      | _ => inl (Return (ERROR_VALUE "wrong data type" (pos oper)))
      end
  | NT_Add =>
      match binary_operands oper stack with
      | inl o => inl o
      | inr (a, b, stack') => inr (Real (a + b) :: stack')
      end
  | NT_Subtract =>
      match binary_operands oper stack with
      | inl o => inl o
      | inr (a, b, stack') => inr (Real (a - b) :: stack')
      end
  | NT_Multiply =>
      match binary_operands oper stack with
      | inl o => inl o
      | inr (a, b, stack') => inr (Real (a * b) :: stack')
      end
  | NT_Divide =>
      match binary_operands oper stack with
      | inl o => inl o
      | inr (a, b, stack') =>
          if (b =? 0)%float
          then inl (Return (ERROR_VALUE "divide by zero" (pos oper)))
          else inr (Real (a / b) :: stack')
      end
  | NT_Power =>
      match binary_operands oper stack with
      | inl o => inl o
      | inr (a, b, stack') =>
          if (a <? 0)%float
          then inl (Return (ERROR_VALUE "negative power base" (pos oper)))
          else inr (Real (pow a b) :: stack')
      end
  | _ => inl (Exit 1)
  end.

(** The [for (;;)] loop of [ExpectOperator]: each round reads
    [opers[opers_size-1]], leaves when its right precedence is below the
    left precedence of [curr], and otherwise pops and folds it. *)
Fixpoint fold_loop (curr : Node) (opers : list Node) (stack : list Value)
  : Outcome + (list Node * list Value) :=
  match opers with
  | [] => inl (Undefined (Opers_index (below 0 1)))
  | top :: opers' =>
      if right (get_prec (type top)) <? left (get_prec (type curr))
      then inr (opers, stack)
      else
        match fold_oper top stack with
        | inl o => inl o
        | inr stack' => fold_loop curr opers' stack'
        end
  end.

Variable symbols : SymbolTable.
Variable line : list ascii.

Definition ExpectValue (st : State) : Outcome + (Label * State) :=
  let '(curr, it') := get_token line (it st) in
  match type curr with
  | NT_Error => inl (Return (ERROR_VALUE (Node_error curr) (pos curr)))
  | NT_OpenPar =>
      match push_oper curr (opers st) with
      | inl o => inl o
      | inr opers' => inr (L_ExpectValue, mkState it' opers' (stack st))
      end
  | NT_Add => inr (L_ExpectValue, mkState it' (opers st) (stack st))
  | NT_Subtract =>
      match push_oper (set_type curr NT_Minus) (opers st) with
      | inl o => inl o
      | inr opers' => inr (L_ExpectValue, mkState it' opers' (stack st))
      end
  | NT_Identifier =>
      let v := get_identifier symbols (skipn (Node_name curr) line) (size curr) in
      match push_value v (stack st) with
      | inl o => inl o
      | inr stack' =>
          match v with
          | Error _ msg => inl (Return (Error (uint16 (pos curr)) msg))
          | _ => inr (L_ExpectOperator, mkState it' (opers st) stack')
          end
      end
  | NT_Number =>
      match push_value (Real (Node_real curr)) (stack st) with
      | inl o => inl o
      | inr stack' => inr (L_ExpectOperator, mkState it' (opers st) stack')
      end
  | _ => inl (Return (ERROR_VALUE "expected value" (pos curr)))
  end.

Definition ExpectOperator (st : State) : Outcome + (Label * State) :=
  let '(curr, it') := get_token line (it st) in
  match type curr with
  | NT_Error => inl (Return (ERROR_VALUE (Node_error curr) (pos curr)))
  | _ =>
      match fold_loop curr (opers st) (stack st) with
      | inl o => inl o
      | inr (opers1, stack1) =>
          match type curr with
          | NT_Add | NT_Subtract | NT_Multiply | NT_Divide | NT_Power =>
              match push_oper curr opers1 with
              | inl o => inl o
              | inr opers' => inr (L_ExpectValue, mkState it' opers' stack1)
              end
          | NT_Factorial =>
              match stack1 with
              | [] => inl (Undefined (Stack_index (below 0 1)))
              | Real r :: stack' =>
                  if (r <? 0)%float
                  then inl (Return (ERROR_VALUE "factorial of negative number" (pos curr)))
                  else inr (L_ExpectOperator,
                            mkState it' opers1 (Real (tgamma (1 + r)) :: stack'))
              | _ => inl (Return (ERROR_VALUE "wrong data type" (pos curr)))
              end
          | NT_Newline =>
              if negb (List.length opers1 =? 1)%nat
              then inl (Return (ERROR_VALUE "parenthesis not closed" (pos curr)))
              else
                match rev stack1 with
                | v :: _ => inl (Return v)
                | [] => inl (Undefined (Stack_unwritten 0))
                end
          | NT_ClosePar =>
              match opers1 with
              | [] => inl (Undefined (Opers_index (below 0 1)))
              | top :: opers' =>
                  match type top with
                  | NT_OpenPar => inr (L_ExpectOperator, mkState it' opers' stack1)
                  | _ => inl (Return (ERROR_VALUE "mismatched parenthesis" (pos curr)))
                  end
              end
          | _ => inl (Return (ERROR_VALUE "expected operator" (pos curr)))
          end
      end
  end.

(** One [goto]: the body of the label, up to the next [goto] or the end
    of the call. *)
Definition step (c : Label * State) : Outcome + (Label * State) :=
  match fst c with
  | L_ExpectValue => ExpectValue (snd c)
  | L_ExpectOperator => ExpectOperator (snd c)
  end.

Fixpoint run (fuel : nat) (c : Label * State) : option Outcome :=
  match fuel with
  | O => None
  | S fuel' =>
      match step c with
      | inl o => Some o
      | inr c' => run fuel' c'
      end
  end.

(** The state at the first [ExpectValue]: [it = line], [opers] holding
    the [NT_Global] sentinel, the value stack empty. *)
Definition initial : Label * State :=
  (L_ExpectValue, mkState 0 [mkNode NT_Global 0 0 U_zero] []).

(** Every [goto] consumes at least one byte of the line, so
    [length line + 1] rounds are enough (see [evaluate_line_total]). *)
Definition evaluate_line : option Outcome :=
  run (S (List.length line)) initial.

End Evaluator.

(** ** The program's table

    [main] starts from the zeroed table and registers [e] and [pi] with
    the [<math.h>] constants [M_E] and [M_PI] (the binary64 values
    nearest to e and pi). *)

Definition M_E : float := 0x1.5bf0a8b145769p+1%float.
Definition M_PI : float := 0x1.921fb54442d18p+1%float.

Definition bytes (s : string) : list ascii := list_ascii_of_string s.

Definition main_symbols : SetResult :=
  match set_identifier [] (bytes "e") 1 (Real M_E) with
  | Stored symbols => set_identifier symbols (bytes "pi") 2 (Real M_PI)
  | r => r
  end.

(** The table [main] passes to every [evaluate_line] call. *)
Definition seeded : SymbolTable :=
  match main_symbols with
  | Stored symbols => symbols
  | Store_outside _ => []
  end.

(** The first line [main] prints for a [DT_Error] result: [res.size]
    blanks, then the caret. *)
Definition caret_line (res_size : Z) : list ascii :=
  repeat " "%char (Z.to_nat res_size) ++ ["^"%char].

(** ** Predicates of the invariants *)

(** The operator kinds the fold [switch] has a case for. *)
Definition foldable (t : NodeType) : bool :=
  match t with
  | NT_Minus | NT_Add | NT_Subtract | NT_Multiply | NT_Divide | NT_Power => true
  | _ => false
  end.

Definition binary (t : NodeType) : bool :=
  match t with
  | NT_Add | NT_Subtract | NT_Multiply | NT_Divide | NT_Power => true
  | _ => false
  end.

(** The shape of the operator stack: the [NT_Global] sentinel in slot 0
    and, above it, open parentheses and foldable operators only. *)
Fixpoint opers_shape (opers : list Node) : bool :=
  match opers with
  | [] => false
  | n :: opers' =>
      match opers' with
      | [] => NodeType_eqb (type n) NT_Global
      | _ :: _ =>
          (foldable (type n) || NodeType_eqb (type n) NT_OpenPar) && opers_shape opers'
      end
  end.

(** Pending binary operators: each one waits for one more value. *)
Fixpoint binary_count (opers : list Node) : nat :=
  match opers with
  | [] => 0%nat
  | n :: opers' => ((if binary (type n) then 1 else 0) + binary_count opers')%nat
  end.

(** [v.type == DT_Real]. *)
Definition is_real (v : Value) : bool :=
  match Value_type v with
  | DT_Real => true
  | _ => false
  end.

Definition all_real (symbols : SymbolTable) : bool :=
  forallb (fun s => is_real (values s)) symbols.

(** States the evaluation of [line] passes through. *)
Inductive reachable (pow : float -> float -> float) (tgamma : float -> float)
  (symbols : SymbolTable) (line : list ascii) : Label * State -> Prop :=
| reachable_initial : reachable pow tgamma symbols line initial
| reachable_step c c' :
    reachable pow tgamma symbols line c ->
    step pow tgamma symbols line c = inr c' ->
    reachable pow tgamma symbols line c'.

(** ** Invariants *)

(** The kinds [get_token] produces: never the sentinel, never unary
    minus. *)
Definition lexed (t : NodeType) : bool :=
  match t with
  | NT_Global | NT_Minus => false
  | _ => true
  end.

(** The operators the fold loop pops for the incoming token [curr] when
    no fold fails: the slots from the top down to the first one whose
    right precedence is below the left precedence of [curr]. *)
Fixpoint popped (curr : Node) (ops : list Node) : list Node :=
  match ops with
  | [] => []
  | top :: ops' =>
      if right (get_prec (type top)) <? left (get_prec (type curr)) then []
      else top :: popped curr ops'
  end.

(** What a state guarantees between two labels: the shape of the
    operator stack, one value per pending binary operator (and one more
    when an operator is expected), the operator stack no larger than the
    bytes consumed allow and within its 64 slots. *)
Definition owed (l : Label) : nat :=
  match l with
  | L_ExpectValue => 0%nat
  | L_ExpectOperator => 1%nat
  end.

Record invariant (line : list ascii) (c : Label * State) : Prop := mkInvariant {
  inv_shape : opers_shape (opers (snd c)) = true;
  inv_balance :
    List.length (stack (snd c)) = (binary_count (opers (snd c)) + owed (fst c))%nat;
  inv_opers_size : (List.length (opers (snd c)) <= it (snd c) + 1)%nat;
  inv_opers_cap : (List.length (opers (snd c)) <= 64)%nat;
  inv_it : (it (snd c) <= List.length line)%nat
}.

(** How a fold may end under the invariant: with a [return], never with
    [exit] and never with an access outside the arrays. *)
Definition returns (o : Outcome) : Prop :=
  match o with
  | Return _ => True
  | _ => False
  end.

(** How one label body may end: a [goto] keeps the invariant and moves
    the cursor forward; the one access outside the arrays is the push at
    [opers[64]], and it needs a line of at least 64 bytes; [exit] does
    not happen. *)
Definition step_post (line : list ascii) (c : Label * State)
  (r : Outcome + (Label * State)) : Prop :=
  match r with
  | inr c' => invariant line c' /\ (it (snd c) < it (snd c'))%nat
  | inl (Return _) => True
  | inl (Exit _) => False
  | inl (Undefined f) => f = Opers_index 64 /\ (64 <= List.length line)%nat
  end.

(** The label bodies never end with "wrong data type" and keep the
    values on the stack real. *)
Definition wrong_data_type (o : Outcome) : bool :=
  match o with
  | Return (Error _ msg) => String.eqb msg "wrong data type"
  | _ => false
  end.

Definition real_post {A : Type} (stack_of : A -> list Value) (r : Outcome + A) : Prop :=
  match r with
  | inl o => wrong_data_type o = false
  | inr a => forallb is_real (stack_of a) = true
  end.

(** ** Sample inputs *)

(** A stand-in for [pow] on non-negative integral exponents: repeated
    multiplication, exact whenever every product is. *)
Fixpoint power_nat (x : float) (n : nat) : float :=
  match n with
  | O => 1%float
  | S n' => (x * power_nat x n')%float
  end.

Definition integral_exponent (y : float) : nat :=
  match Prim2SF y with
  | S754_finite false m e => Z.to_nat (Z.shiftl (Zpos m) e)
  | _ => 0%nat
  end.

Definition pow_by_multiplication (x y : float) : float :=
  power_nat x (integral_exponent y).

(** [n] distinct names [v00], [v01], ... registered one after the other
    in the zeroed table. *)
Definition numbered_name (i : nat) : list ascii :=
  ["v"%char; ascii_of_nat (48 + i / 10); ascii_of_nat (48 + i mod 10)].

Fixpoint fill (n : nat) : SetResult :=
  match n with
  | O => Stored []
  | S n' =>
      match fill n' with
      | Stored symbols => set_identifier symbols (numbered_name n') 3 (Real 0)
      | r => r
      end
  end.

Definition full_table : SymbolTable :=
  match fill 64 with
  | Stored symbols => symbols
  | Store_outside _ => []
  end.

(** ** Notions of the further properties *)

(** Where [get_token] finds its token: the cursor after the loop that
    skips blanks and tabs. *)
Definition token_start (line : list ascii) (iter : nat) : nat :=
  (iter + span_len is_blank (skipn iter line))%nat.

(** Where the [do ... while (is_alnum( *it))] loop of an identifier that
    starts at [p] stops. *)
Definition identifier_end (line : list ascii) (p : nat) : nat :=
  (S p + span_len is_alnum (skipn (S p) line))%nat.

(** [v.type == DT_Error]. *)
Definition is_error (v : Value) : bool :=
  match Value_type v with
  | DT_Error => true
  | _ => false
  end.

(** The diagnostics of the lexer, of the table and of the evaluator,
    "wrong data type" left out. *)
Definition diagnostics : list string :=
  ["unrecognized token"; "identifier name too long"; "expected value";
   "expected operator"; "parenthesis not closed"; "mismatched parenthesis";
   "identifier not found"; "divide by zero"; "negative power base";
   "factorial of negative number"].

(** The C operator the byte [o] of a binary operator token denotes. *)
Definition arithmetic (o : ascii) (a b : float) : float :=
  if (o =? "+")%char then (a + b)%float
  else if (o =? "-")%char then (a - b)%float
  else if (o =? "*")%char then (a * b)%float
  else (a / b)%float.

(** An outcome whose value, if it is an error, carries one of
    [diagnostics], and is not [DT_Void]. *)
Definition diagnosed (o : Outcome) : bool :=
  match o with
  | Return (Error _ msg) => existsb (String.eqb msg) diagnostics
  | Return Void => false
  | _ => true
  end.

Definition diagnosed_post {A : Type} (stack_of : A -> list Value) (r : Outcome + A)
  : Prop :=
  match r with
  | inl o => diagnosed o = true
  | inr a => forallb is_real (stack_of a) = true
  end.

(** An offset of the line, the end-of-line position included. *)
Definition within (line : list ascii) (x : Z) : bool :=
  (0 <=? x) && (x <=? Z.of_nat (List.length line)).

(** The operators wait at offsets of the line, and no error value is on
    the value stack. *)
Definition positioned (line : list ascii) (ops : list Node) (stk : list Value) : Prop :=
  forallb (fun n => within line (pos n)) ops = true
  /\ forallb (fun v => negb (is_error v)) stk = true.

(** An outcome whose value, if it is an error, has its offset in the
    line. *)
Definition located (line : list ascii) (o : Outcome) : Prop :=
  match o with
  | Return (Error size _) => within line size = true
  | _ => True
  end.

(** Only blanks and tabs at the offsets from [i] up to [j]. *)
Definition blank_between (line : list ascii) (i j : nat) : Prop :=
  forall k, (i <= k < j)%nat -> is_blank (nth k line NUL) = true.

(** The byte at [e] ends the line: the terminating NUL or a newline. *)
Definition line_end (line : list ascii) (e : nat) : Prop :=
  nth e line NUL = NUL \/ nth e line NUL = LF.

(** The second of two operator bytes binds tighter than the first:
    [*] or [/] after [+] or [-]. *)
Definition tighter (o1 o2 : ascii) : bool :=
  ((o1 =? "+")%char || (o1 =? "-")%char) && ((o2 =? "*")%char || (o2 =? "/")%char).

(** The kind of the token that one of the bytes [( ) + - * / ^ !]
    makes on its own. *)
Definition single_kind (o : ascii) : NodeType :=
  if (o =? "(")%char then NT_OpenPar
  else if (o =? ")")%char then NT_ClosePar
  else if (o =? "+")%char then NT_Add
  else if (o =? "-")%char then NT_Subtract
  else if (o =? "*")%char then NT_Multiply
  else if (o =? "/")%char then NT_Divide
  else if (o =? "^")%char then NT_Power
  else NT_Factorial.

(** ** Proof steps *)

Ltac break_if :=
  match goal with
  | |- context [if ?b then _ else _] => destruct b eqn:?
  end.

(** Closes the cases of a statement on token kinds once the first byte
    is known or the tests on it are hypotheses. *)
Ltac kind_cases :=
  repeat split; intros;
  repeat match goal with
         | H : _ \/ _ |- _ => destruct H
         | H : _ /\ _ |- _ => destruct H
         end;
  subst; try discriminate; try congruence; auto;
  try (exfalso;
       match goal with
       | H : _ = true |- _ => vm_compute in H; discriminate H
       | H : _ = false |- _ => vm_compute in H; discriminate H
       end).

(** * Properties *)

(** ** The lexer *)

Lemma span_len_le p s : (span_len p s <= List.length s)%nat.
Proof.
  induction s as [|c s IH]; simpl; [lia|].
  destruct (p c); simpl; lia.
Qed.

Lemma scan_mantissa_bounds p s ip fp n :
  scan_mantissa p s = (ip, fp, n) ->
  (span_len p s <= n <= List.length s)%nat.
Proof.
  unfold scan_mantissa.
  pose proof (span_len_le p s) as Hle.
  pose proof (length_skipn (span_len p s) s) as Hskip.
  destruct (skipn (span_len p s) s) as [|c s'] eqn:E.
  - intros H; inversion H; subst; lia.
  - pose proof (span_len_le p s') as Hle'. simpl in Hskip.
    destruct c as [[] [] [] [] [] [] [] []];
      intros H; inversion H; subst; lia.
Qed.

Lemma scan_exponent_bounds mark s :
  (snd (scan_exponent mark s) <= List.length s)%nat.
Proof.
  unfold scan_exponent.
  destruct s as [|c s']; simpl; [lia|].
  destruct (mark c); simpl; [|lia].
  destruct s' as [|d s'']; [simpl; lia|].
  destruct d as [[] [] [] [] [] [] [] []]; cbv zeta iota beta;
    match goal with
    | |- context [span_len is_digit ?ds] =>
        pose proof (span_len_le is_digit ds);
        destruct (span_len is_digit ds =? 0)%nat; simpl in *; lia
    end.
Qed.

Lemma span_len_head p c s : p c = true -> (1 <= span_len p (c :: s))%nat.
Proof. intros H; simpl; rewrite H; lia. Qed.

Lemma strtod_decimal_consumes c s :
  is_digit c = true ->
  (1 <= snd (strtod_decimal (c :: s)) <= S (List.length s))%nat.
Proof.
  intros Hc. unfold strtod_decimal.
  destruct (scan_mantissa is_digit (c :: s)) as [[ip fp] n1] eqn:Em.
  apply scan_mantissa_bounds in Em.
  pose proof (span_len_head is_digit c s Hc) as H1.
  pose proof (scan_exponent_bounds
                (fun c0 : ascii => (c0 =? "e")%char || (c0 =? "E")%char)
                (skipn n1 (c :: s))) as He.
  rewrite length_skipn in He.
  destruct (scan_exponent _ (skipn n1 (c :: s))) as [e n2].
  cbn [snd List.length] in *. lia.
Qed.

Lemma strtod_consumes c s :
  is_digit c = true ->
  (1 <= snd (strtod (c :: s)) <= S (List.length s))%nat.
Proof.
  intros Hc. pose proof (strtod_decimal_consumes c s Hc) as Hd.
  unfold strtod.
  destruct c as [[] [] [] [] [] [] [] []]; try exact Hd.
  destruct s as [|x s']; [exact Hd|].
  destruct ((x =? "x")%char || (x =? "X")%char); [|exact Hd].
  destruct (scan_mantissa is_xdigit s') as [[ip fp] n1] eqn:Em.
  destruct (List.length ip + List.length fp =? 0)%nat; [exact Hd|].
  apply scan_mantissa_bounds in Em.
  pose proof (scan_exponent_bounds
                (fun c0 : ascii => (c0 =? "p")%char || (c0 =? "P")%char)
                (skipn n1 s')) as He.
  rewrite length_skipn in He.
  destruct (scan_exponent _ (skipn n1 s')) as [e n2].
  cbn [snd List.length] in *. lia.
Qed.

Lemma skipn_nth_cons (line : list ascii) : forall i,
  (i < List.length line)%nat ->
  skipn i line = nth i line NUL :: skipn (S i) line.
Proof.
  induction line as [|c line IH]; intros i Hi; simpl in Hi; [lia|].
  destruct i as [|i]; [reflexivity|].
  change (skipn i line = nth i line NUL :: skipn (S i) line).
  apply IH; lia.
Qed.

Lemma nth_in_line (line : list ascii) i :
  (nth i line NUL =? NUL)%char = false -> (i < List.length line)%nat.
Proof.
  intros H. destruct (Nat.lt_ge_cases i (List.length line)) as [Hlt|Hge]; [exact Hlt|].
  rewrite (nth_overflow line NUL Hge) in H. discriminate.
Qed.

(** A token that is neither the end of the line nor an error consumed at
    least one byte, and none beyond the line. *)
Lemma get_token_advances line i curr i' :
  get_token line i = (curr, i') ->
  type curr <> NT_Newline -> type curr <> NT_Error ->
  (i < i' <= List.length line)%nat.
Proof.
  unfold get_token.
  set (it0 := (i + span_len is_blank (skipn i line))%nat).
  set (c := nth it0 line NUL).
  destruct ((c =? NUL)%char || (c =? LF)%char) eqn:Eend.
  { intros H; inversion H; subst; simpl; congruence. }
  apply orb_false_elim in Eend. destruct Eend as [Enul _].
  pose proof (nth_in_line line it0 Enul) as Hin.
  assert (i <= it0)%nat as Hle by (unfold it0; lia).
  destruct (is_digit c) eqn:Edigit.
  { rewrite (skipn_nth_cons line it0 Hin). fold c.
    pose proof (strtod_consumes c (skipn (S it0) line) Edigit) as Hn.
    rewrite length_skipn in Hn.
    destruct (strtod (c :: skipn (S it0) line)) as [r n].
    intros H; inversion H; subst. cbn [snd] in Hn. lia. }
  repeat match goal with
         | |- context [if (c =? ?x)%char then _ else _] =>
             destruct (c =? x)%char;
             [intros H; inversion H; subst; intros _ _; lia|]
         end.
  destruct (is_character c).
  - pose proof (span_len_le is_alnum (skipn (it0 + 1) line)) as Hs.
    rewrite length_skipn in Hs.
    match goal with
    | |- context [if ?b then _ else _] => destruct b
    end; intros H; inversion H; subst; simpl; intros; try congruence; lia.
  - intros H; inversion H; subst; simpl; congruence.
Qed.

Lemma get_token_lexed line i : lexed (type (fst (get_token line i))) = true.
Proof.
  unfold get_token.
  repeat match goal with
         | |- context [if ?b then _ else _] => destruct b
         | |- context [strtod ?s] => destruct (strtod s)
         end; reflexivity.
Qed.

(** Every token that reaches the fold comparison has left precedence at
    least 1. *)
Lemma lexed_left t : lexed t = true -> t <> NT_Error -> 1 <= left (get_prec t).
Proof. destruct t; simpl; intros; try discriminate; try congruence; lia. Qed.

(** ** The fold loop *)

Lemma NodeType_eqb_eq a b : NodeType_eqb a b = true -> a = b.
Proof. destruct a, b; simpl; intros; congruence. Qed.

Section Fold.

Variable pow : float -> float -> float.
Variable tgamma : float -> float.

Lemma fold_oper_sizes oper stack :
  foldable (type oper) = true ->
  (1 + (if binary (type oper) then 1 else 0) <= List.length stack)%nat ->
  match fold_oper pow oper stack with
  | inl o => returns o
  | inr stack' =>
      (List.length stack' + (if binary (type oper) then 1 else 0))%nat
      = List.length stack
  end.
Proof.
  unfold fold_oper, binary_operands.
  destruct (type oper); simpl; try discriminate; intros _ Hlen;
    destruct stack as [|[] [|[] stack']]; simpl in *;
    try lia; try exact I; try break_if; simpl; try exact I; lia.
Qed.

Lemma binary_count_lt opers :
  opers_shape opers = true -> (binary_count opers < List.length opers)%nat.
Proof.
  induction opers as [|n [|m opers] IH]; simpl; try discriminate.
  - intros H. apply NodeType_eqb_eq in H. rewrite H. simpl. lia.
  - intros H. apply andb_prop in H. destruct H as [_ H].
    specialize (IH H). simpl in IH.
    destruct (binary (type n)); lia.
Qed.

Lemma fold_loop_invariant curr :
  1 <= left (get_prec (type curr)) ->
  forall ops stk,
    opers_shape ops = true ->
    List.length stk = (binary_count ops + 1)%nat ->
    match fold_loop pow curr ops stk with
    | inl o => returns o
    | inr (opers1, stack1) =>
        opers_shape opers1 = true
        /\ List.length stack1 = (binary_count opers1 + 1)%nat
        /\ (List.length opers1 <= List.length ops)%nat
    end.
Proof.
  intros Hleft.
  induction ops as [|top rest IH]; intros stack Hshape Hbal; [discriminate|].
  cbn [fold_loop].
  destruct (right (get_prec (type top)) <? left (get_prec (type curr))) eqn:Ecmp.
  { auto. }
  apply Z.ltb_ge in Ecmp.
  assert (foldable (type top) = true /\ opers_shape rest = true) as [Hfold Hrest].
  { destruct rest as [|m rest].
    - cbn [opers_shape] in Hshape. apply NodeType_eqb_eq in Hshape.
      rewrite Hshape in Ecmp. simpl in Ecmp. lia.
    - cbn [opers_shape] in Hshape. apply andb_prop in Hshape.
      destruct Hshape as [Hk Hrest]. split; [|exact Hrest].
      apply orb_prop in Hk. destruct Hk as [Hk|Hk]; [exact Hk|].
      apply NodeType_eqb_eq in Hk. rewrite Hk in Ecmp. simpl in Ecmp. lia. }
  cbn [binary_count] in Hbal.
  pose proof (fold_oper_sizes top stack Hfold) as Hf.
  destruct (fold_oper pow top stack) as [o|stack'].
  { apply Hf. destruct (binary (type top)); lia. }
  assert (List.length stack' = (binary_count rest + 1)%nat) as Hbal'.
  { destruct (binary (type top)); lia. }
  specialize (IH stack' Hrest Hbal').
  destruct (fold_loop pow curr rest stack') as [o|[opers1 stack1]]; [exact IH|].
  cbn [List.length]. destruct IH as (H1 & H2 & H3). auto.
Qed.

End Fold.

(** ** The two labels *)

Lemma opers_shape_push n ops :
  opers_shape ops = true ->
  foldable (type n) || NodeType_eqb (type n) NT_OpenPar = true ->
  opers_shape (n :: ops) = true.
Proof.
  destruct ops as [|m ops]; [discriminate|].
  intros Hs Hk. cbn [opers_shape] in *. rewrite Hk. exact Hs.
Qed.

Lemma opers_shape_pop n ops :
  opers_shape (n :: ops) = true -> type n <> NT_Global -> opers_shape ops = true.
Proof.
  destruct ops as [|m ops]; cbn [opers_shape].
  - intros H Hn. apply NodeType_eqb_eq in H. contradiction.
  - intros H _. apply andb_prop in H. apply H.
Qed.

Section Steps.

Variable pow : float -> float -> float.
Variable tgamma : float -> float.
Variable symbols : SymbolTable.
Variable line : list ascii.

(** A push on the operator stack followed by a [goto]: of an open
    parenthesis or a unary minus in [ExpectValue], of a binary operator
    in [ExpectOperator]. *)
Lemma push_oper_post c l' n it' ops stk :
  opers_shape ops = true ->
  foldable (type n) || NodeType_eqb (type n) NT_OpenPar = true ->
  List.length stk = (binary_count (n :: ops) + owed l')%nat ->
  (List.length ops <= it (snd c) + 1)%nat ->
  (List.length ops <= 64)%nat ->
  (it (snd c) < it' <= List.length line)%nat ->
  step_post line c
    match push_oper n ops with
    | inl o => inl o
    | inr ops' => inr (l', mkState it' ops' stk)
    end.
Proof.
  intros Hshape Hkind Hbal Hsize Hcap Hi. unfold push_oper.
  destruct (Nat.ltb_spec (List.length ops) 64) as [Hlt|Hge]; cbn [step_post].
  - split; [|cbn [snd it]; lia].
    constructor; cbn [fst snd opers stack it List.length]; try lia.
    apply opers_shape_push; assumption.
  - replace (List.length ops) with 64%nat by lia. split; [reflexivity|lia].
Qed.

(** A push on the value stack in [ExpectValue]: the slot is below 64
    because the operator stack holds the sentinel besides the pending
    binary operators. *)
Lemma push_value_fits st v :
  invariant line (L_ExpectValue, st) ->
  push_value v (stack st) = inr (v :: stack st).
Proof.
  intros [Hshape Hbal _ Hcap _]. cbn [fst snd owed] in *.
  pose proof (binary_count_lt (opers st) Hshape) as Hcount.
  unfold push_value.
  destruct (Nat.ltb_spec (List.length (stack st)) 64); [reflexivity|lia].
Qed.

Lemma push_value_post st v it' :
  invariant line (L_ExpectValue, st) ->
  (it st < it' <= List.length line)%nat ->
  invariant line (L_ExpectOperator, mkState it' (opers st) (v :: stack st)).
Proof.
  intros [Hshape Hbal Hsize Hcap Hit] Hi. cbn [fst snd owed] in *.
  constructor; cbn [fst snd opers stack it owed List.length]; try lia.
  exact Hshape.
Qed.

Lemma ExpectValue_invariant st :
  invariant line (L_ExpectValue, st) ->
  step_post line (L_ExpectValue, st) (ExpectValue symbols line st).
Proof.
  intros Hinv. pose proof Hinv as [Hshape Hbal Hsize Hcap Hit].
  cbn [fst snd owed] in *.
  unfold ExpectValue.
  destruct (get_token line (it st)) as [curr it'] eqn:Etok.
  pose proof (get_token_advances line (it st) curr it' Etok) as Hadv.
  destruct (type curr) eqn:Etype; try exact I;
    (assert (it st < it' <= List.length line)%nat as Hi
       by (apply Hadv; congruence)).
  - (* NT_OpenPar *)
    apply push_oper_post; cbn [snd binary_count owed]; try assumption;
      rewrite Etype; [reflexivity|cbn [binary]; lia].
  - (* NT_Identifier *)
    rewrite (push_value_fits st _ Hinv).
    destruct (get_identifier symbols (skipn (Node_name curr) line) (size curr)) eqn:Eid;
      try exact I; cbn [step_post]; (split; [|cbn [snd it]; lia]);
      apply push_value_post; assumption.
  - (* NT_Number *)
    rewrite (push_value_fits st _ Hinv). cbn [step_post].
    split; [|cbn [snd it]; lia]. apply push_value_post; assumption.
  - (* NT_Add: unary plus *)
    cbn [step_post snd it]. split; [|lia].
    constructor; cbn [fst snd opers stack it owed]; try assumption; lia.
  - (* NT_Subtract: unary minus *)
    apply push_oper_post; cbn [snd binary_count owed set_type type binary];
      try assumption; reflexivity.
Qed.

Lemma ExpectOperator_invariant st :
  invariant line (L_ExpectOperator, st) ->
  step_post line (L_ExpectOperator, st) (ExpectOperator pow tgamma line st).
Proof.
  intros [Hshape Hbal Hsize Hcap Hit]. cbn [fst snd owed] in *.
  unfold ExpectOperator.
  destruct (get_token line (it st)) as [curr it'] eqn:Etok.
  pose proof (get_token_advances line (it st) curr it' Etok) as Hadv.
  pose proof (get_token_lexed line (it st)) as Hlex.
  rewrite Etok in Hlex. cbn [fst] in Hlex.
  destruct (NodeType_eqb (type curr) NT_Error) eqn:Eerr.
  { apply NodeType_eqb_eq in Eerr. rewrite Eerr. exact I. }
  assert (type curr <> NT_Error) as Hne by (intros E; rewrite E in Eerr; discriminate).
  pose proof (fold_loop_invariant pow curr (lexed_left _ Hlex Hne)
                (opers st) (stack st) Hshape Hbal) as Hfold.
  destruct (fold_loop pow curr (opers st) (stack st)) as [o|[opers1 stack1]].
  { destruct (type curr); try exact I; destruct o; try contradiction; exact I. }
  destruct Hfold as (Hshape1 & Hbal1 & Hsize1).
  destruct (type curr) eqn:Etype; try exact I; try congruence;
    try solve [apply push_oper_post; cbn [snd binary_count owed];
               try assumption; try lia;
               [rewrite Etype; reflexivity
               |rewrite Etype; cbn [binary]; lia
               |apply Hadv; congruence]].
  - (* NT_Newline: [stack[0]] was written *)
    cbn [step_post].
    destruct (negb (List.length opers1 =? 1)%nat); [exact I|].
    destruct (rev stack1) as [|v vs] eqn:Erev; [|exact I].
    apply (f_equal (@List.length Value)) in Erev.
    rewrite length_rev in Erev. simpl in Erev. lia.
  - (* NT_ClosePar: the open parenthesis is popped *)
    destruct opers1 as [|top opers']; [discriminate|].
    destruct (type top) eqn:Etop; try exact I.
    assert (it st < it' <= List.length line)%nat as Hi by (apply Hadv; congruence).
    cbn [step_post fst snd it]. split; [|lia].
    cbn [List.length] in Hsize1.
    constructor; cbn [fst snd opers stack it owed]; try lia.
    + apply (opers_shape_pop top); [exact Hshape1|congruence].
    + cbn [binary_count] in Hbal1. rewrite Etop in Hbal1. exact Hbal1.
  - (* NT_Factorial: the top value is replaced *)
    assert (it st < it' <= List.length line)%nat as Hi by (apply Hadv; congruence).
    destruct stack1 as [|[] stack']; cbn [step_post]; try exact I;
      [simpl in Hbal1; lia|].
    break_if; cbn [step_post]; [exact I|].
    cbn [fst snd it]. split; [|lia].
    constructor; cbn [fst snd opers stack it owed]; try assumption; lia.
Qed.

End Steps.

(** ** Whole runs *)

Section Runs.

Variable pow : float -> float -> float.
Variable tgamma : float -> float.
Variable symbols : SymbolTable.
Variable line : list ascii.

#[local] Abbreviation step' := (step pow tgamma symbols line).
#[local] Abbreviation run' := (run pow tgamma symbols line).
#[local] Abbreviation reachable' := (reachable pow tgamma symbols line).

Lemma initial_invariant : invariant line initial.
Proof. constructor; simpl; try reflexivity; lia. Qed.

Lemma step_invariant c : invariant line c -> step_post line c (step' c).
Proof.
  destruct c as [[] st]; intros Hinv; unfold step; cbn [fst snd].
  - apply ExpectValue_invariant; exact Hinv.
  - apply ExpectOperator_invariant; exact Hinv.
Qed.

Lemma reachable_invariant c : reachable' c -> invariant line c.
Proof.
  induction 1 as [|c c' _ IH Hstep].
  - apply initial_invariant.
  - pose proof (step_invariant c IH) as Hpost.
    rewrite Hstep in Hpost. apply Hpost.
Qed.

(** The outcome of a run is the outcome of the label body of some
    state it passed through. *)
Lemma run_outcome fuel : forall c o,
  reachable' c -> run' fuel c = Some o ->
  exists c', reachable' c' /\ step' c' = inl o.
Proof.
  induction fuel as [|fuel IH]; intros c o Hreach; [discriminate|].
  cbn [run].
  destruct (step' c) as [o'|c'] eqn:Hstep.
  - intros H; inversion H; subst. exists c. split; [exact Hreach|exact Hstep].
  - apply IH. exact (reachable_step _ _ _ _ c c' Hreach Hstep).
Qed.

Lemma run_total fuel : forall c,
  invariant line c ->
  (List.length line < it (snd c) + fuel)%nat ->
  exists o, run' fuel c = Some o.
Proof.
  induction fuel as [|fuel IH]; intros c Hinv Hfuel.
  - pose proof (inv_it line c Hinv). lia.
  - cbn [run].
    pose proof (step_invariant c Hinv) as Hpost.
    destruct (step' c) as [o|c'].
    + exists o. reflexivity.
    + destruct Hpost as [Hinv' Hlt]. apply IH; [exact Hinv'|lia].
Qed.

(** [evaluate_line] ends for every line: the fuel of the definition is
    never used up. *)
Theorem evaluate_line_total :
  exists o, evaluate_line pow tgamma symbols line = Some o.
Proof.
  apply run_total; [apply initial_invariant|simpl; lia].
Qed.

Lemma evaluate_line_outcome o :
  evaluate_line pow tgamma symbols line = Some o ->
  exists c, reachable' c /\ step' c = inl o.
Proof. apply run_outcome. constructor. Qed.

End Runs.

(** ** Kinds of the values on the stack *)

Lemma get_token_error line i :
  let curr := fst (get_token line i) in
  type curr = NT_Error ->
  Node_error curr = "identifier name too long"
  \/ Node_error curr = "unrecognized token".
Proof.
  unfold get_token.
  repeat match goal with
         | |- context [if ?b then _ else _] => destruct b
         | |- context [strtod ?s] => destruct (strtod s)
         end; cbn; intros; try discriminate; auto.
Qed.

Lemma get_identifier_real symbols name name_size :
  all_real symbols = true ->
  match get_identifier symbols name name_size with
  | Real _ => True
  | Error _ msg => msg = "identifier not found"
  | Void => False
  end.
Proof.
  induction symbols as [|s symbols IH]; simpl; [reflexivity|].
  intros H. apply andb_prop in H. destruct H as [Hs Hrest].
  destruct (slot_matches s name name_size); [|exact (IH Hrest)].
  destruct (values s); try discriminate. exact I.
Qed.

Section Reals.

Variable pow : float -> float -> float.
Variable tgamma : float -> float.

Lemma fold_oper_real oper stk :
  forallb is_real stk = true ->
  real_post (fun s => s) (fold_oper pow oper stk).
Proof.
  unfold fold_oper, binary_operands, real_post.
  destruct (type oper); try reflexivity;
    destruct stk as [|[] [|[] stk']]; cbn; try discriminate; try reflexivity;
    intros H; try break_if; cbn; try reflexivity; exact H.
Qed.

Lemma fold_loop_real curr : forall ops stk,
  forallb is_real stk = true ->
  real_post snd (fold_loop pow curr ops stk).
Proof.
  induction ops as [|top rest IH]; intros stk Hreal; [reflexivity|].
  cbn [fold_loop]. break_if; [exact Hreal|].
  pose proof (fold_oper_real top stk Hreal) as Hf.
  destruct (fold_oper pow top stk) as [o|stk']; [exact Hf|].
  apply IH. exact Hf.
Qed.

Variable symbols : SymbolTable.
Variable line : list ascii.
Hypothesis symbols_real : all_real symbols = true.

Lemma step_real c :
  forallb is_real (stack (snd c)) = true ->
  real_post (fun c' => stack (snd c')) (step pow tgamma symbols line c).
Proof.
  destruct c as [[] st]; cbn [fst snd step]; intros Hreal.
  - unfold ExpectValue.
    pose proof (get_token_error line (it st)) as Herr.
    destruct (get_token line (it st)) as [curr it']. cbn [fst] in Herr.
    unfold push_value, push_oper.
    destruct (type curr) eqn:Etype; try reflexivity.
    + destruct (Herr eq_refl) as [E|E]; rewrite E; reflexivity.
    + break_if; [exact Hreal|reflexivity].
    + pose proof (get_identifier_real symbols
                    (skipn (Node_name curr) line) (size curr) symbols_real) as Hid.
      break_if; [|reflexivity].
      destruct (get_identifier symbols (skipn (Node_name curr) line) (size curr));
        [contradiction|rewrite Hid; reflexivity|exact Hreal].
    + break_if; [exact Hreal|reflexivity].
    + exact Hreal.
    + break_if; [exact Hreal|reflexivity].
  - unfold ExpectOperator.
    pose proof (get_token_error line (it st)) as Herr.
    destruct (get_token line (it st)) as [curr it']. cbn [fst] in Herr.
    pose proof (fold_loop_real curr (opers st) (stack st) Hreal) as Hfold.
    unfold push_oper.
    destruct (type curr) eqn:Etype;
      try (destruct (Herr eq_refl) as [E|E]; rewrite E; reflexivity);
      destruct (fold_loop pow curr (opers st) (stack st)) as [o|[opers1 stack1]];
      try exact Hfold; cbn [real_post snd] in Hfold; try reflexivity;
      try (break_if; [exact Hfold|reflexivity]).
    + (* NT_Newline *)
      break_if; [reflexivity|].
      destruct (rev stack1) as [|v vs] eqn:Erev; [reflexivity|].
      assert (is_real v = true) as Hv.
      { rewrite forallb_forall in Hfold. apply Hfold.
        apply in_rev. rewrite Erev. left. reflexivity. }
      destruct v; try discriminate. reflexivity.
    + (* NT_ClosePar *)
      destruct opers1 as [|top opers']; [reflexivity|].
      destruct (type top); try reflexivity. exact Hfold.
    + (* NT_Factorial *)
      destruct stack1 as [|[] stack']; try discriminate; try reflexivity.
      break_if; [reflexivity|exact Hfold].
Qed.

Lemma reachable_real c :
  reachable pow tgamma symbols line c ->
  forallb is_real (stack (snd c)) = true.
Proof.
  induction 1 as [|c c' _ IH Hstep]; [reflexivity|].
  pose proof (step_real c IH) as Hpost. rewrite Hstep in Hpost. exact Hpost.
Qed.

End Reals.

(** * The claims of the specification *)

(** C1. The fold loop pops and folds the pending operator exactly when
    its right precedence is at least the left precedence of the incoming
    token, with add/subtract at 50/50, multiply/divide at 55/55 and power
    at 61/60; so "2 - 3 - 4" is -5, "2 ^ 3 ^ 2" is [pow(2, pow(3, 2))],
    which is 512 for a [pow] that is exact on these arguments,
    "2 + 3 * 4" is 14 and "(2 + 3) * 4" is 20. *)
Theorem C1_precedence_folding
  (pow : float -> float -> float) (tgamma : float -> float) (symbols : SymbolTable)
  (Hpow32 : pow 3%float 2%float = 9%float)
  (Hpow29 : pow 2%float 9%float = 512%float) :
  (get_prec NT_Add = mkPrecedence 50 50
   /\ get_prec NT_Subtract = mkPrecedence 50 50
   /\ get_prec NT_Multiply = mkPrecedence 55 55
   /\ get_prec NT_Divide = mkPrecedence 55 55
   /\ get_prec NT_Power = mkPrecedence 61 60)
  /\ (forall curr top ops stk,
        (right (get_prec (type top)) >= left (get_prec (type curr)) ->
         fold_loop pow curr (top :: ops) stk =
         match fold_oper pow top stk with
         | inl o => inl o
         | inr stk' => fold_loop pow curr ops stk'
         end)
        /\ (right (get_prec (type top)) < left (get_prec (type curr)) ->
            fold_loop pow curr (top :: ops) stk = inr (top :: ops, stk)))
  /\ evaluate_line pow tgamma symbols (bytes "2 - 3 - 4")
     = Some (Return (Real (-5)%float))
  /\ evaluate_line pow tgamma symbols (bytes "2 ^ 3 ^ 2")
     = Some (Return (Real (pow 2%float (pow 3%float 2%float))))
  /\ evaluate_line pow tgamma symbols (bytes "2 ^ 3 ^ 2")
     = Some (Return (Real 512%float))
  /\ evaluate_line pow tgamma symbols (bytes "2 + 3 * 4")
     = Some (Return (Real 14%float))
  /\ evaluate_line pow tgamma symbols (bytes "(2 + 3) * 4")
     = Some (Return (Real 20%float)).
Proof.
  assert (evaluate_line pow tgamma symbols (bytes "2 ^ 3 ^ 2")
          = Some (Return (Real (pow 2%float (pow 3%float 2%float))))) as Hpower
    by (vm_compute; reflexivity).
  split; [do 4 (split; [reflexivity|]); reflexivity|].
  split.
  { intros curr top ops stk. cbn [fold_loop]. split; intros Hcmp.
    - destruct (Z.ltb_spec (right (get_prec (type top)))
                  (left (get_prec (type curr)))); [lia|reflexivity].
    - destruct (Z.ltb_spec (right (get_prec (type top)))
                  (left (get_prec (type curr)))); [reflexivity|lia]. }
  split; [vm_compute; reflexivity|].
  split; [exact Hpower|].
  split; [rewrite Hpower, Hpow32, Hpow29; reflexivity|].
  split; vm_compute; reflexivity.
Qed.

Lemma C1_precedence_folding_witness :
  evaluate_line pow_by_multiplication (fun x => x) seeded (bytes "2 ^ 3 ^ 2")
  = Some (Return (Real 512%float)).
Proof.
  apply (C1_precedence_folding pow_by_multiplication (fun x => x) seeded);
    vm_compute; reflexivity.
Defined.

(** C2 as stated fails: for "1 + (2 *" no [pow] and [tgamma] make the
    evaluator return the closing-parenthesis complaint, at any offset. *)
Lemma C2_counterexample :
  ~ (exists pow tgamma size,
       evaluate_line pow tgamma seeded (bytes "1 + (2 *")
       = Some (Return (Error size "parenthesis not closed"))).
Proof.
  intros (pow & tgamma & size & H). vm_compute in H. discriminate H.
Qed.

(** C2, amended. "1 + (2 *" fails with "expected value" at offset 8,
    the end of the line, where the operand of [*] is missing; the
    complaint "parenthesis not closed" is what "1 + (2" gives, and its
    offset is the end of the line too (6), so the caret is printed past
    the last byte of the line, not under the parenthesis at offset 4. *)
Theorem C2_unclosed_parenthesis_offsets
  (pow : float -> float -> float) (tgamma : float -> float) (symbols : SymbolTable) :
  evaluate_line pow tgamma symbols (bytes "1 + (2 *")
  = Some (Return (Error 8 "expected value"))
  /\ List.length (bytes "1 + (2 *") = 8%nat
  /\ caret_line 8 = bytes "        ^"
  /\ evaluate_line pow tgamma symbols (bytes "1 + (2")
     = Some (Return (Error 6 "parenthesis not closed"))
  /\ List.length (bytes "1 + (2") = 6%nat
  /\ caret_line 6 = bytes "      ^"
  /\ nth 4 (bytes "1 + (2 *") NUL = "("%char
  /\ nth 4 (bytes "1 + (2") NUL = "("%char.
Proof.
  do 7 (split; [vm_compute; reflexivity|]). reflexivity.
Qed.

(** C3 as stated fails: after 64 distinct names are registered, a call
    with a 65th one reaches the appending stores with [count = 64]. *)
Lemma C3_counterexample :
  fill 64 = Stored full_table
  /\ symbol_count full_table = 64%nat
  /\ get_identifier full_table (bytes "x") 1 = Error 0 "identifier not found"
  /\ set_identifier full_table (bytes "x") 1 (Real 0) = Store_outside 64.
Proof.
  do 3 (split; [vm_compute; reflexivity|]). vm_compute. reflexivity.
Qed.

Lemma overwrite_spec symbols name name_size value :
  match overwrite symbols name name_size value with
  | Some symbols' =>
      existsb (fun s => slot_matches s name name_size) symbols = true
      /\ symbol_count symbols' = symbol_count symbols
      /\ get_identifier symbols' name name_size = value
  | None => existsb (fun s => slot_matches s name name_size) symbols = false
  end.
Proof.
  induction symbols as [|s symbols IH]; cbn [overwrite existsb]; [reflexivity|].
  destruct (slot_matches s name name_size) eqn:Em.
  - cbn [orb get_identifier symbol_count List.length].
    unfold slot_matches in *. cbn [names name_sizes values]. rewrite Em. auto.
  - destruct (overwrite symbols name name_size value) as [symbols'|];
      cbn [option_map orb]; [|exact IH].
    destruct IH as (H1 & H2 & H3). cbn [get_identifier]. rewrite Em.
    unfold symbol_count in *. cbn [List.length]. auto.
Qed.

(** C3, amended. [set_identifier] has no capacity test.  A name that
    matches a slot has that slot's value replaced and the count is
    unchanged; a name that matches none is appended while
    [symbol_count < 64]; with [symbol_count >= 64] the call is not
    rejected: it performs the stores at index [symbol_count], outside
    the arrays. *)
Theorem C3_set_identifier_capacity
  (symbols : SymbolTable) (name : list ascii) (name_size : Z) (value : Value) :
  (existsb (fun s => slot_matches s name name_size) symbols = true ->
   exists symbols',
     set_identifier symbols name name_size value = Stored symbols'
     /\ symbol_count symbols' = symbol_count symbols
     /\ get_identifier symbols' name name_size = value)
  /\ (existsb (fun s => slot_matches s name name_size) symbols = false ->
      (symbol_count symbols < 64)%nat ->
      set_identifier symbols name name_size value
      = Stored (symbols ++ [mkSymbol name (uint8 name_size) value]))
  /\ (existsb (fun s => slot_matches s name name_size) symbols = false ->
      (64 <= symbol_count symbols)%nat ->
      set_identifier symbols name name_size value
      = Store_outside (symbol_count symbols)).
Proof.
  pose proof (overwrite_spec symbols name name_size value) as Hspec.
  unfold set_identifier, SYMBOL_CAPACITY.
  destruct (overwrite symbols name name_size value) as [symbols'|].
  - destruct Hspec as (Hex & Hcount & Hget).
    split; [intros _; exists symbols'; auto|].
    split; intros Hno; rewrite Hno in Hex; discriminate.
  - split; [intros Hyes; rewrite Hyes in Hspec; discriminate|].
    split; intros _ Hcount.
    + destruct (Nat.ltb_spec (symbol_count symbols) 64); [reflexivity|lia].
    + destruct (Nat.ltb_spec (symbol_count symbols) 64); [lia|reflexivity].
Qed.

Lemma C3_set_identifier_capacity_witness :
  set_identifier seeded (bytes "x") 1 (Real 0)
  = Stored (seeded ++ [mkSymbol (bytes "x") (uint8 1) (Real 0)]).
Proof.
  apply (C3_set_identifier_capacity seeded (bytes "x") 1 (Real 0)).
  - reflexivity.
  - vm_compute. lia.
Defined.

(** C4 as stated fails: a line of 65 open parentheses fits the 256-byte
    buffer and makes [evaluate_line] store at [opers[64]]. *)
Lemma C4_counterexample :
  (List.length (repeat "("%char 65) <= 255)%nat
  /\ forall pow tgamma symbols,
       evaluate_line pow tgamma symbols (repeat "("%char 65)
       = Some (Undefined (Opers_index 64)).
Proof.
  split; [simpl; lia|].
  intros pow tgamma symbols. vm_compute. reflexivity.
Qed.

(** C4, amended. [evaluate_line] tests no index.  In every state both
    sizes are at most 64, and all reads and the pushes on [stack] use
    slots 0..63 that were written before; the one access outside the
    arrays a line can cause is the push at [opers[64]], and it takes a
    line of at least 64 bytes: every line of at most 63 bytes returns a
    Value, and 64 open parentheses store at [opers[64]]. *)
Theorem C4_short_lines_stay_in_bounds
  (pow : float -> float -> float) (tgamma : float -> float) (symbols : SymbolTable) :
  (forall line,
     (List.length line <= 63)%nat ->
     exists v, evaluate_line pow tgamma symbols line = Some (Return v))
  /\ (forall line c,
        reachable pow tgamma symbols line c ->
        (List.length (opers (snd c)) <= 64)%nat
        /\ (List.length (stack (snd c)) <= 64)%nat)
  /\ (forall line f,
        evaluate_line pow tgamma symbols line = Some (Undefined f) ->
        f = Opers_index 64 /\ (64 <= List.length line)%nat)
  /\ evaluate_line pow tgamma symbols (repeat "("%char 64)
     = Some (Undefined (Opers_index 64)).
Proof.
  assert (forall line o,
            evaluate_line pow tgamma symbols line = Some o ->
            step_post line initial (inl o)) as Hend.
  { intros line o Ho.
    destruct (evaluate_line_outcome pow tgamma symbols line o Ho)
      as (c & Hreach & Hstep).
    pose proof (step_invariant pow tgamma symbols line c
                  (reachable_invariant pow tgamma symbols line c Hreach)) as Hpost.
    rewrite Hstep in Hpost. exact Hpost. }
  split.
  { intros line Hshort.
    destruct (evaluate_line_total pow tgamma symbols line) as [o Ho].
    specialize (Hend line o Ho). cbn [step_post] in Hend.
    destruct o as [v|s|f]; [exists v; exact Ho|contradiction|lia]. }
  split.
  { intros line c Hreach.
    destruct (reachable_invariant pow tgamma symbols line c Hreach)
      as [Hshape Hbal _ Hcap _].
    pose proof (binary_count_lt _ Hshape) as Hcount.
    split; [exact Hcap|]. destruct (fst c); cbn [owed] in Hbal; lia. }
  split.
  { intros line f Hf. exact (Hend line _ Hf). }
  vm_compute. reflexivity.
Qed.

Lemma C4_short_lines_stay_in_bounds_witness :
  exists v,
    evaluate_line pow_by_multiplication (fun x => x) seeded (repeat "("%char 63)
    = Some (Return v).
Proof.
  apply (proj1 (C4_short_lines_stay_in_bounds pow_by_multiplication (fun x => x) seeded)
           (repeat "("%char 63)).
  simpl. lia.
Defined.

Lemma fold_loop_popped pow curr : forall ops stk opers1 stack1,
  fold_loop pow curr ops stk = inr (opers1, stack1) ->
  ops = popped curr ops ++ opers1.
Proof.
  induction ops as [|top rest IH]; intros stk opers1 stack1; [discriminate|].
  cbn [fold_loop popped]. break_if.
  - intros H; inversion H; subst. reflexivity.
  - destruct (fold_oper pow top stk) as [o|stk']; [discriminate|].
    intros H. cbn [app]. f_equal. exact (IH stk' opers1 stack1 H).
Qed.

Lemma popped_foldable curr :
  1 <= left (get_prec (type curr)) ->
  forall ops,
    opers_shape ops = true ->
    forallb (fun n => foldable (type n)) (popped curr ops) = true.
Proof.
  intros Hleft. induction ops as [|top rest IH]; [reflexivity|].
  intros Hshape. cbn [popped].
  destruct (Z.ltb_spec (right (get_prec (type top))) (left (get_prec (type curr))))
    as [|Hge]; [reflexivity|].
  destruct rest as [|m rest].
  - cbn [opers_shape] in Hshape. apply NodeType_eqb_eq in Hshape.
    rewrite Hshape in Hge. simpl in Hge. lia.
  - cbn [opers_shape] in Hshape. apply andb_prop in Hshape.
    destruct Hshape as [Hk Hrest].
    cbn [forallb]. rewrite (IH Hrest), andb_true_r.
    apply orb_prop in Hk. destruct Hk as [Hk|Hk]; [exact Hk|].
    apply NodeType_eqb_eq in Hk. rewrite Hk in Hge. simpl in Hge. lia.
Qed.

(** C5. Every token that reaches the fold comparison has left precedence
    at least 1, while the sentinel and an open parenthesis have right
    precedence 0; the operator stack of every state holds the sentinel
    at the bottom and only open parentheses and the six foldable kinds
    above it; so the operators the loop pops are all of the six kinds,
    and no line makes [evaluate_line] reach the [exit] of the default
    branch. *)
Theorem C5_fold_default_unreachable
  (pow : float -> float -> float) (tgamma : float -> float)
  (symbols : SymbolTable) (line : list ascii) :
  (forall i,
     type (fst (get_token line i)) <> NT_Error ->
     1 <= left (get_prec (type (fst (get_token line i)))))
  /\ right (get_prec NT_Global) = 0
  /\ right (get_prec NT_OpenPar) = 0
  /\ (forall c,
        reachable pow tgamma symbols line c ->
        opers_shape (opers (snd c)) = true)
  /\ (forall c,
        reachable pow tgamma symbols line c ->
        fst c = L_ExpectOperator ->
        let curr := fst (get_token line (it (snd c))) in
        type curr <> NT_Error ->
        forallb (fun n => foldable (type n)) (popped curr (opers (snd c))) = true
        /\ forall opers1 stack1,
             fold_loop pow curr (opers (snd c)) (stack (snd c)) = inr (opers1, stack1) ->
             opers (snd c) = popped curr (opers (snd c)) ++ opers1)
  /\ (forall c status,
        reachable pow tgamma symbols line c ->
        step pow tgamma symbols line c <> inl (Exit status))
  /\ (forall status,
        evaluate_line pow tgamma symbols line <> Some (Exit status)).
Proof.
  assert (forall i,
            type (fst (get_token line i)) <> NT_Error ->
            1 <= left (get_prec (type (fst (get_token line i))))) as Hleft.
  { intros i Hne. apply lexed_left; [apply get_token_lexed|exact Hne]. }
  assert (forall c status,
            reachable pow tgamma symbols line c ->
            step pow tgamma symbols line c <> inl (Exit status)) as Hstep.
  { intros c status Hreach Heq.
    pose proof (step_invariant pow tgamma symbols line c
                  (reachable_invariant pow tgamma symbols line c Hreach)) as Hpost.
    rewrite Heq in Hpost. exact Hpost. }
  split; [exact Hleft|].
  split; [reflexivity|].
  split; [reflexivity|].
  split.
  { intros c Hreach.
    exact (inv_shape line c (reachable_invariant pow tgamma symbols line c Hreach)). }
  split.
  { intros c Hreach _ curr Hne. split.
    - apply popped_foldable; [exact (Hleft _ Hne)|].
      exact (inv_shape line c (reachable_invariant pow tgamma symbols line c Hreach)).
    - intros opers1 stack1. apply fold_loop_popped. }
  split; [exact Hstep|].
  intros status Heq.
  destruct (evaluate_line_outcome pow tgamma symbols line _ Heq) as (c & Hreach & Hc).
  exact (Hstep c status Hreach Hc).
Qed.

Lemma C5_fold_default_unreachable_witness :
  step pow_by_multiplication (fun x => x) seeded (bytes "1+2")
    (L_ExpectOperator, mkState 1 [mkNode NT_Global 0 0 U_zero] [Real 1%float])
  <> inl (Exit 1).
Proof.
  apply (C5_fold_default_unreachable pow_by_multiplication (fun x => x) seeded
           (bytes "1+2")).
  apply (reachable_step _ _ _ _ initial); [apply reachable_initial|].
  vm_compute. reflexivity.
Defined.

(** C6. "1 +" fails with "expected value" at offset 3, the end of the
    line (also when the line ends with the newline [fgets] keeps), and
    "1 / 0" fails with "divide by zero" at offset 2, where the [/]
    stands: a failing fold reports the position of the operator's
    token. *)
Theorem C6_error_offsets
  (pow : float -> float -> float) (tgamma : float -> float) (symbols : SymbolTable) :
  evaluate_line pow tgamma symbols (bytes "1 +")
  = Some (Return (Error 3 "expected value"))
  /\ evaluate_line pow tgamma symbols (bytes "1 +" ++ [LF])
     = Some (Return (Error 3 "expected value"))
  /\ List.length (bytes "1 +") = 3%nat
  /\ evaluate_line pow tgamma symbols (bytes "1 / 0")
     = Some (Return (Error 2 "divide by zero"))
  /\ evaluate_line pow tgamma symbols (bytes "1 / 0" ++ [LF])
     = Some (Return (Error 2 "divide by zero"))
  /\ nth 2 (bytes "1 / 0") NUL = "/"%char
  /\ (forall oper a b stk,
        type oper = NT_Divide ->
        (b =? 0)%float = true ->
        fold_oper pow oper (Real b :: Real a :: stk)
        = inl (Return (ERROR_VALUE "divide by zero" (pos oper)))).
Proof.
  do 6 (split; [vm_compute; reflexivity|]).
  intros oper a b stk Htype Hzero.
  unfold fold_oper. rewrite Htype. cbn [binary_operands]. rewrite Hzero. reflexivity.
Qed.

Lemma C6_error_offsets_witness :
  fold_oper pow_by_multiplication (mkNode NT_Divide 0 2 U_zero)
    [Real 0%float; Real 1%float]
  = inl (Return (ERROR_VALUE "divide by zero" 2)).
Proof.
  apply (C6_error_offsets pow_by_multiplication (fun x => x) seeded); reflexivity.
Defined.

(** C7. Folding power with a left operand below zero returns "negative
    power base", and factorial of an operand below zero returns
    "factorial of negative number", whatever [pow] and [tgamma] compute:
    neither is called.  "(-1) ^ 0.5" and "(-1)!" fail so, at the offsets
    of [^] and [!]. *)
Theorem C7_negative_domain
  (pow : float -> float -> float) (tgamma : float -> float) (symbols : SymbolTable) :
  (forall oper a b stk,
     type oper = NT_Power ->
     (a <? 0)%float = true ->
     fold_oper pow oper (Real b :: Real a :: stk)
     = inl (Return (ERROR_VALUE "negative power base" (pos oper))))
  /\ (forall line st curr it' opers1 r stk,
        get_token line (it st) = (curr, it') ->
        type curr = NT_Factorial ->
        fold_loop pow curr (opers st) (stack st) = inr (opers1, Real r :: stk) ->
        (r <? 0)%float = true ->
        ExpectOperator pow tgamma line st
        = inl (Return (ERROR_VALUE "factorial of negative number" (pos curr))))
  /\ evaluate_line pow tgamma symbols (bytes "(-1) ^ 0.5")
     = Some (Return (Error 5 "negative power base"))
  /\ evaluate_line pow tgamma symbols (bytes "(-1)!")
     = Some (Return (Error 4 "factorial of negative number")).
Proof.
  split.
  { intros oper a b stk Htype Hneg.
    unfold fold_oper. rewrite Htype. cbn [binary_operands]. rewrite Hneg. reflexivity. }
  split.
  { intros line st curr it' opers1 r stk Htok Htype Hfold Hneg.
    unfold ExpectOperator. rewrite Htok, Htype, Hfold, Hneg. reflexivity. }
  split; vm_compute; reflexivity.
Qed.

Lemma C7_negative_domain_witness :
  ExpectOperator pow_by_multiplication (fun x => x) (bytes "(-1)!")
    (mkState 4 [mkNode NT_Global 0 0 U_zero] [Real (-1)%float])
  = inl (Return (ERROR_VALUE "factorial of negative number" 4)).
Proof.
  refine (proj1 (proj2 (C7_negative_domain pow_by_multiplication (fun x => x) seeded))
            (bytes "(-1)!") (mkState 4 [mkNode NT_Global 0 0 U_zero] [Real (-1)%float])
            (mkNode NT_Factorial 0 4 U_zero) 5%nat
            [mkNode NT_Global 0 0 U_zero] (-1)%float [] _ _ _ _);
    vm_compute; reflexivity.
Defined.

(** C8. In [ExpectValue] a subtract token is re-tagged [NT_Minus] and
    pushed on the operator stack, the evaluator staying in
    [ExpectValue]; [NT_Minus] has precedence 59/59, above the 50 of the
    binary add and subtract, so a pending unary minus is folded when one
    of them arrives; "-2 - -3" is 1. *)
Theorem C8_unary_minus
  (pow : float -> float -> float) (tgamma : float -> float) (symbols : SymbolTable) :
  (forall line st curr it',
     get_token line (it st) = (curr, it') ->
     type curr = NT_Subtract ->
     (List.length (opers st) < 64)%nat ->
     ExpectValue symbols line st
     = inr (L_ExpectValue,
            mkState it' (mkNode NT_Minus (size curr) (pos curr) (payload curr) :: opers st)
              (stack st)))
  /\ get_prec NT_Minus = mkPrecedence 59 59
  /\ left (get_prec NT_Add) <= right (get_prec NT_Minus)
  /\ left (get_prec NT_Subtract) <= right (get_prec NT_Minus)
  /\ right (get_prec NT_Add) < left (get_prec NT_Minus)
  /\ right (get_prec NT_Subtract) < left (get_prec NT_Minus)
  /\ evaluate_line pow tgamma symbols (bytes "-2 - -3")
     = Some (Return (Real 1%float)).
Proof.
  split.
  { intros line st curr it' Htok Htype Hsize.
    unfold ExpectValue, push_oper. rewrite Htok, Htype.
    destruct (Nat.ltb_spec (List.length (opers st)) 64); [reflexivity|lia]. }
  split; [reflexivity|].
  do 4 (split; [simpl; lia|]).
  vm_compute. reflexivity.
Qed.

Lemma C8_unary_minus_witness :
  ExpectValue seeded (bytes "-2 - -3") (mkState 4 [mkNode NT_Subtract 0 3 U_zero] [])
  = inr (L_ExpectValue,
         mkState 6 [mkNode NT_Minus 0 5 U_zero; mkNode NT_Subtract 0 3 U_zero] []).
Proof.
  refine (proj1 (C8_unary_minus pow_by_multiplication (fun x => x) seeded)
            (bytes "-2 - -3") (mkState 4 [mkNode NT_Subtract 0 3 U_zero] [])
            (mkNode NT_Subtract 0 5 U_zero) 6%nat _ _ _);
    [vm_compute; reflexivity|reflexivity|simpl; lia].
Defined.

Lemma get_identifier_miss symbols name name_size :
  existsb (fun s => slot_matches s name name_size) symbols = false ->
  get_identifier symbols name name_size = Error 0 "identifier not found".
Proof.
  induction symbols as [|s symbols IH]; cbn [existsb get_identifier]; [reflexivity|].
  intros H. apply orb_false_elim in H. destruct H as [Hs Hrest].
  rewrite Hs. exact (IH Hrest).
Qed.

(** C9. [main] leaves exactly two slots in the table, [e] with [M_E]
    and [pi] with [M_PI], the doubles that the literals
    2.718281828459045 and 3.141592653589793 denote; "e" and "pi"
    evaluate to them.  A name that matches no slot gets "identifier not
    found" with offset 0 from the table, and [ExpectValue] returns it
    with the offset of the identifier's token: "foo" fails at 0,
    "1 + foo" at 4. *)
Theorem C9_seeded_constants
  (pow : float -> float -> float) (tgamma : float -> float) :
  main_symbols
  = Stored [mkSymbol (bytes "e") 1 (Real M_E); mkSymbol (bytes "pi") 2 (Real M_PI)]
  /\ symbol_count seeded = 2%nat
  /\ fst (strtod (bytes "2.718281828459045")) = M_E
  /\ fst (strtod (bytes "3.141592653589793")) = M_PI
  /\ evaluate_line pow tgamma seeded (bytes "e") = Some (Return (Real M_E))
  /\ evaluate_line pow tgamma seeded (bytes "pi") = Some (Return (Real M_PI))
  /\ (forall symbols line st curr it',
        get_token line (it st) = (curr, it') ->
        type curr = NT_Identifier ->
        (List.length (stack st) < 64)%nat ->
        existsb (fun s => slot_matches s (skipn (Node_name curr) line) (size curr))
          symbols = false ->
        ExpectValue symbols line st
        = inl (Return (Error (uint16 (pos curr)) "identifier not found")))
  /\ evaluate_line pow tgamma seeded (bytes "foo")
     = Some (Return (Error 0 "identifier not found"))
  /\ evaluate_line pow tgamma seeded (bytes "1 + foo")
     = Some (Return (Error 4 "identifier not found")).
Proof.
  do 6 (split; [vm_compute; reflexivity|]).
  split; [|split; vm_compute; reflexivity].
  intros symbols line st curr it' Htok Htype Hsize Hmiss.
  unfold ExpectValue, push_value. rewrite Htok, Htype.
  rewrite (get_identifier_miss _ _ _ Hmiss).
  destruct (Nat.ltb_spec (List.length (stack st)) 64); [reflexivity|lia].
Qed.

Lemma C9_seeded_constants_witness :
  ExpectValue seeded (bytes "1 + foo") (mkState 3 [mkNode NT_Add 0 2 U_zero] [Real 1%float])
  = inl (Return (Error (uint16 4) "identifier not found")).
Proof.
  refine (proj1 (proj2 (proj2 (proj2 (proj2 (proj2 (proj2
            (C9_seeded_constants pow_by_multiplication (fun x => x))))))))
            seeded (bytes "1 + foo")
            (mkState 3 [mkNode NT_Add 0 2 U_zero] [Real 1%float])
            (mkNode NT_Identifier 3 4 (U_name 4)) 7%nat _ _ _ _);
    [vm_compute; reflexivity|reflexivity|simpl; lia|vm_compute; reflexivity].
Defined.

(** C10. The table [main] builds holds real values only; with it every
    value on the stack of every state of every line is real, and
    [evaluate_line] never returns "wrong data type". *)
Theorem C10_no_wrong_data_type
  (pow : float -> float -> float) (tgamma : float -> float) (line : list ascii) :
  all_real seeded = true
  /\ (forall c,
        reachable pow tgamma seeded line c ->
        forallb is_real (stack (snd c)) = true)
  /\ (forall size,
        evaluate_line pow tgamma seeded line
        <> Some (Return (Error size "wrong data type"))).
Proof.
  assert (all_real seeded = true) as Hseed by reflexivity.
  split; [exact Hseed|].
  split; [intros c; apply reachable_real; exact Hseed|].
  intros size Heq.
  destruct (evaluate_line_outcome pow tgamma seeded line _ Heq) as (c & Hreach & Hc).
  pose proof (step_real pow tgamma seeded line Hseed c
                (reachable_real pow tgamma seeded line Hseed c Hreach)) as Hpost.
  rewrite Hc in Hpost. discriminate Hpost.
Qed.

Lemma C10_no_wrong_data_type_witness :
  forallb is_real [Real 1%float] = true.
Proof.
  apply (proj1 (proj2 (C10_no_wrong_data_type pow_by_multiplication (fun x => x)
                         (bytes "1+2")))
           (L_ExpectOperator, mkState 1 [mkNode NT_Global 0 0 U_zero] [Real 1%float])).
  apply (reachable_step _ _ _ _ initial); [apply reachable_initial|].
  vm_compute. reflexivity.
Defined.

(** * Further properties of the code *)

(** ** The lexer *)

Lemma span_len_spec p s :
  p NUL = false ->
  (forall k, (k < span_len p s)%nat -> p (nth k s NUL) = true)
  /\ p (nth (span_len p s) s NUL) = false.
Proof.
  intros Hnul. induction s as [|c s [IH1 IH2]]; cbn [span_len].
  - split; [intros k Hk; lia|exact Hnul].
  - destruct (p c) eqn:Ec.
    + split; [|exact IH2].
      intros [|k] Hk; [exact Ec|]. apply IH1. lia.
    + split; [intros k Hk; lia|exact Ec].
Qed.

Lemma span_len_unique p s : forall n,
  (forall k, (k < n)%nat -> p (nth k s NUL) = true) ->
  p (nth n s NUL) = false ->
  span_len p s = n.
Proof.
  induction s as [|c s IH]; intros n Hall Hstop.
  - destruct n as [|n]; [reflexivity|].
    specialize (Hall 0%nat ltac:(lia)). simpl in *. congruence.
  - cbn [span_len]. destruct n as [|n].
    + cbn [nth] in Hstop. rewrite Hstop. reflexivity.
    + pose proof (Hall 0%nat ltac:(lia)) as Hc. cbn [nth] in Hc.
      rewrite Hc. f_equal. apply IH.
      * intros k Hk. apply (Hall (S k)). lia.
      * exact Hstop.
Qed.

Lemma token_start_spec line i :
  (forall k, (i <= k < token_start line i)%nat -> is_blank (nth k line NUL) = true)
  /\ is_blank (nth (token_start line i) line NUL) = false.
Proof.
  unfold token_start.
  destruct (span_len_spec is_blank (skipn i line) eq_refl) as [Hall Hstop].
  rewrite nth_skipn in Hstop. split; [|exact Hstop].
  intros k Hk. specialize (Hall (k - i)%nat ltac:(lia)).
  rewrite nth_skipn in Hall. replace (i + (k - i))%nat with k in Hall by lia.
  exact Hall.
Qed.

Lemma token_start_skip line i j :
  (i <= j)%nat ->
  (forall k, (i <= k < j)%nat -> is_blank (nth k line NUL) = true) ->
  token_start line i = token_start line j.
Proof.
  intros Hij Hblank.
  destruct (token_start_spec line j) as [Hall Hstop].
  unfold token_start in *.
  rewrite (span_len_unique is_blank (skipn i line)
             (j - i + span_len is_blank (skipn j line))); [lia| |].
  - intros k Hk. rewrite nth_skipn.
    destruct (Nat.lt_ge_cases (i + k) j) as [Hlt|Hge].
    + apply Hblank. lia.
    + apply Hall. lia.
  - rewrite nth_skipn.
    replace (i + (j - i + span_len is_blank (skipn j line)))%nat
      with (j + span_len is_blank (skipn j line))%nat by lia.
    exact Hstop.
Qed.

(** X1. Blanks and tabs before a token belong to no token: from any
    two cursors with only blanks and tabs between them [get_token]
    returns the same token and the same new cursor. *)
Theorem X1_get_token_skips_blanks (line : list ascii) (i j : nat) :
  (i <= j)%nat ->
  (forall k, (i <= k < j)%nat -> is_blank (nth k line NUL) = true) ->
  get_token line i = get_token line j.
Proof.
  intros Hij Hblank.
  pose proof (token_start_skip line i j Hij Hblank) as Hstart.
  unfold token_start in Hstart. unfold get_token. cbv zeta.
  rewrite Hstart. reflexivity.
Qed.

Lemma X1_get_token_skips_blanks_witness :
  get_token (" "%char :: TAB :: bytes "  42") 0 = get_token (" "%char :: TAB :: bytes "  42") 4.
Proof.
  apply (X1_get_token_skips_blanks (" "%char :: TAB :: bytes "  42") 0 4); [lia|].
  intros k Hk.
  assert (k = 0 \/ k = 1 \/ k = 2 \/ k = 3)%nat as Hcases by lia.
  destruct Hcases as [E|[E|[E|E]]]; subst k; reflexivity.
Defined.

Lemma token_start_bounds line i :
  (i <= List.length line)%nat ->
  (i <= token_start line i <= List.length line)%nat.
Proof.
  intros Hi. unfold token_start.
  pose proof (span_len_le is_blank (skipn i line)) as Hle.
  rewrite length_skipn in Hle. lia.
Qed.

(** X2. The extent of a token.  For a cursor inside the line,
    [get_token] skips the blanks and tabs up to the first other byte,
    sets [pos] to that offset, and leaves the new cursor after the
    token: one past the end-of-line byte for [NT_Newline], inside the
    line for every other kind, and on the token's first byte, with no
    progress, exactly for the error "unrecognized token". *)
Theorem X2_token_extent (line : list ascii) (i : nat) :
  (i <= List.length line)%nat ->
  let p := token_start line i in
  let curr := fst (get_token line i) in
  let i' := snd (get_token line i) in
  (i <= p <= List.length line)%nat
  /\ (forall k, (i <= k < p)%nat -> is_blank (nth k line NUL) = true)
  /\ is_blank (nth p line NUL) = false
  /\ pos curr = uint32 (Z.of_nat p)
  /\ (p <= i')%nat
  /\ (type curr = NT_Newline -> i' = S p)
  /\ (type curr <> NT_Newline -> (i' <= List.length line)%nat)
  /\ (i' = p <-> type curr = NT_Error /\ Node_error curr = "unrecognized token").
Proof.
  intros Hi p curr i'.
  pose proof (token_start_bounds line i Hi) as Hp. fold p in Hp.
  destruct (token_start_spec line i) as [Hblank Hstop]. fold p in Hblank, Hstop.
  split; [exact Hp|]. split; [exact Hblank|]. split; [exact Hstop|].
  subst curr i'. unfold get_token. cbv zeta.
  change (i + span_len is_blank (skipn i line))%nat with p.
  set (c := nth p line NUL).
  destruct ((c =? NUL)%char || (c =? LF)%char) eqn:Eend.
  { cbn [fst snd type pos Node_error payload].
    intuition (try lia; try discriminate). }
  apply orb_false_elim in Eend. destruct Eend as [Enul _].
  pose proof (nth_in_line line p Enul) as Hin.
  destruct (is_digit c) eqn:Edigit.
  { rewrite (skipn_nth_cons line p Hin). fold c.
    pose proof (strtod_consumes c (skipn (S p) line) Edigit) as Hn.
    rewrite length_skipn in Hn.
    destruct (strtod (c :: skipn (S p) line)) as [r n].
    cbn [fst snd type pos Node_error payload] in *.
    intuition (try lia; try discriminate). }
  repeat match goal with
         | |- context [if (c =? ?x)%char then _ else _] =>
             destruct (c =? x)%char;
             [cbn [fst snd type pos Node_error payload];
              intuition (try lia; try discriminate)|]
         end.
  destruct (is_character c).
  - pose proof (span_len_le is_alnum (skipn (p + 1) line)) as Hs.
    rewrite length_skipn in Hs.
    match goal with
    | |- context [if ?b then _ else _] => destruct b
    end; cbn [fst snd type pos Node_error payload];
      intuition (try lia; try discriminate).
  - cbn [fst snd type pos Node_error payload].
    intuition (try lia; try discriminate).
Qed.

Lemma X2_token_extent_witness :
  pos (fst (get_token (bytes "1 + foo") 3)) = uint32 4
  /\ snd (get_token (bytes "1 + foo") 3) = 7%nat.
Proof.
  pose proof (X2_token_extent (bytes "1 + foo") 3 ltac:(simpl; lia)) as H.
  split; [apply H|reflexivity].
Defined.

Lemma digit_not_letter c : is_digit c = true -> is_character c = false.
Proof.
  destruct c as [[] [] [] [] [] [] [] []]; vm_compute; intros H;
    try reflexivity; discriminate H.
Qed.

(** X3. The kind of a token is decided by its first byte alone: NUL or
    newline ends the line, a decimal digit starts a number whose value
    and length [strtod] gives, each of [( ) + - * / ^ !] is its own
    kind, and a letter starts an identifier (or the error for one that
    is too long).  [get_token] never makes an [NT_Global] or an
    [NT_Minus] token. *)
Theorem X3_token_kinds (line : list ascii) (i : nat) :
  let p := token_start line i in
  let c := nth p line NUL in
  let curr := fst (get_token line i) in
  lexed (type curr) = true
  /\ (type curr = NT_Newline <-> c = NUL \/ c = LF)
  /\ (type curr = NT_Number <-> is_digit c = true)
  /\ (type curr = NT_OpenPar <-> c = "("%char)
  /\ (type curr = NT_ClosePar <-> c = ")"%char)
  /\ (type curr = NT_Add <-> c = "+"%char)
  /\ (type curr = NT_Subtract <-> c = "-"%char)
  /\ (type curr = NT_Multiply <-> c = "*"%char)
  /\ (type curr = NT_Divide <-> c = "/"%char)
  /\ (type curr = NT_Power <-> c = "^"%char)
  /\ (type curr = NT_Factorial <-> c = "!"%char)
  /\ (type curr = NT_Identifier
      \/ (type curr = NT_Error /\ Node_error curr = "identifier name too long")
      <-> is_character c = true)
  /\ (type curr = NT_Number ->
      payload curr = U_real (fst (strtod (skipn p line)))
      /\ snd (get_token line i) = (p + snd (strtod (skipn p line)))%nat)
  /\ (type curr = NT_Identifier -> payload curr = U_name p).
Proof.
  intros p c curr. subst curr. unfold get_token. cbv zeta.
  change (i + span_len is_blank (skipn i line))%nat with p. fold c.
  destruct (strtod (skipn p line)) as [r n].
  clearbody c p.
  destruct ((c =? NUL)%char || (c =? LF)%char) eqn:Eend.
  { apply orb_prop in Eend.
    destruct Eend as [E|E]; apply Ascii.eqb_eq in E; subst c;
      vm_compute; kind_cases. }
  destruct (is_digit c) eqn:Edigit.
  { pose proof (digit_not_letter c Edigit) as Hletter.
    cbn [fst snd type payload]; kind_cases. }
  repeat match goal with
         | |- context [if (c =? ?x)%char then _ else _] =>
             let E := fresh "E" in
             destruct (c =? x)%char eqn:E;
             [apply Ascii.eqb_eq in E; subst c; vm_compute; kind_cases|]
         end.
  destruct (is_character c) eqn:Echar.
  - match goal with
    | |- context [if ?b then _ else _] => destruct b
    end; cbn [fst snd type payload Node_error]; kind_cases.
  - cbn [fst snd type payload Node_error]; kind_cases.
Qed.

Lemma letter_first_byte c :
  is_character c = true ->
  (c =? NUL)%char || (c =? LF)%char = false
  /\ is_digit c = false
  /\ (c =? "(")%char = false /\ (c =? ")")%char = false
  /\ (c =? "+")%char = false /\ (c =? "-")%char = false
  /\ (c =? "*")%char = false /\ (c =? "/")%char = false
  /\ (c =? "^")%char = false /\ (c =? "!")%char = false.
Proof.
  destruct c as [[] [] [] [] [] [] [] []]; vm_compute; intros H;
    try discriminate H; repeat split.
Qed.

Lemma letter_is_alnum c : is_character c = true -> is_alnum c = true.
Proof. unfold is_alnum, is_character. intros H. rewrite H. reflexivity. Qed.

(** X4. Identifiers are read by maximal munch.  When the first byte of
    the token is a letter, the token extends over the whole run of
    letters and digits that starts there, and the cursor is left on the
    first byte that is neither.  In a line shorter than 65536 bytes
    [size] is the length of the run; the token is an identifier named by
    the run when the run has at most 64 bytes, and the error "identifier
    name too long" otherwise, the cursor being past the run all the
    same. *)
Theorem X4_identifier_extent (line : list ascii) (i : nat) :
  Z.of_nat (List.length line) < 65536 ->
  let p := token_start line i in
  is_character (nth p line NUL) = true ->
  let q := identifier_end line p in
  let curr := fst (get_token line i) in
  snd (get_token line i) = q
  /\ (p < q <= List.length line)%nat
  /\ (forall k, (p <= k < q)%nat -> is_alnum (nth k line NUL) = true)
  /\ is_alnum (nth q line NUL) = false
  /\ size curr = Z.of_nat (q - p)
  /\ ((q - p <= 64)%nat -> type curr = NT_Identifier /\ payload curr = U_name p)
  /\ ((64 < q - p)%nat ->
      type curr = NT_Error /\ Node_error curr = "identifier name too long").
Proof.
  intros Hshort p Hletter q curr.
  destruct (letter_first_byte _ Hletter)
    as (Eend & Edigit & E1 & E2 & E3 & E4 & E5 & E6 & E7 & E8).
  assert (p < List.length line)%nat as Hin.
  { apply nth_in_line. apply orb_false_elim in Eend. apply Eend. }
  destruct (span_len_spec is_alnum (skipn (S p) line) eq_refl) as [Hall Hstop].
  pose proof (span_len_le is_alnum (skipn (S p) line)) as Hle.
  rewrite length_skipn in Hle.
  rewrite nth_skipn in Hstop. fold (identifier_end line p) in Hstop. fold q in Hstop.
  assert (p < q <= List.length line)%nat as Hq
    by (unfold q, identifier_end; lia).
  assert (uint16 (Z.of_nat (q - p)) = Z.of_nat (q - p)) as Hsize.
  { unfold uint16. apply Z.mod_small. change (2 ^ 16) with 65536. lia. }
  subst curr. unfold get_token. cbv zeta.
  change (i + span_len is_blank (skipn i line))%nat with p.
  rewrite Eend, Edigit, E1, E2, E3, E4, E5, E6, E7, E8, Hletter.
  replace (p + 1)%nat with (S p) by lia.
  change (S p + span_len is_alnum (skipn (S p) line))%nat with q.
  rewrite Hsize.
  split.
  { destruct (64 <? Z.of_nat (q - p)); reflexivity. }
  split; [exact Hq|].
  split.
  { intros k Hk. destruct (Nat.eq_dec k p) as [->|Hne].
    - apply letter_is_alnum. exact Hletter.
    - specialize (Hall (k - S p)%nat ltac:(unfold q, identifier_end in Hk; lia)).
      rewrite nth_skipn in Hall.
      replace (S p + (k - S p))%nat with k in Hall by lia. exact Hall. }
  split; [exact Hstop|].
  destruct (Z.ltb_spec 64 (Z.of_nat (q - p))) as [Hlong|Hfits];
    cbn [fst snd type size payload Node_error];
    (split; [reflexivity|]); split; intros Hlen; try lia; split; reflexivity.
Qed.

Lemma X4_identifier_extent_witness :
  snd (get_token (bytes "2*pi1+1") 2) = 5%nat
  /\ type (fst (get_token (bytes "2*pi1+1") 2)) = NT_Identifier.
Proof.
  pose proof (X4_identifier_extent (bytes "2*pi1+1") 2
                ltac:(simpl; lia) eq_refl) as H.
  split; [apply H|apply H; simpl; lia].
Defined.

(** ** The symbol table *)

Lemma memcmp_eq_refl a : forall n, memcmp_eq a a n = true.
Proof.
  intros n. revert a. induction n as [|n IH]; intros a; cbn [memcmp_eq];
    [reflexivity|].
  rewrite Ascii.eqb_refl. apply IH.
Qed.

Lemma memcmp_eq_trans n : forall a b c,
  memcmp_eq a b n = true -> memcmp_eq a c n = true -> memcmp_eq b c n = true.
Proof.
  induction n as [|n IH]; intros a b c Hab Hac; cbn [memcmp_eq] in *;
    [reflexivity|].
  apply andb_prop in Hab. destruct Hab as [Hb Hab].
  apply andb_prop in Hac. destruct Hac as [Hc Hac].
  apply Ascii.eqb_eq in Hb. apply Ascii.eqb_eq in Hc.
  rewrite <- Hb, <- Hc, Ascii.eqb_refl. exact (IH _ _ _ Hab Hac).
Qed.

Lemma get_identifier_app symbols more name name_size :
  get_identifier (symbols ++ more) name name_size
  = if existsb (fun s => slot_matches s name name_size) symbols
    then get_identifier symbols name name_size
    else get_identifier more name name_size.
Proof.
  induction symbols as [|s symbols IH]; cbn [app get_identifier existsb];
    [reflexivity|].
  destruct (slot_matches s name name_size); [reflexivity|exact IH].
Qed.

Lemma uint8_small n : 0 <= n < 256 -> uint8 n = n.
Proof. intros H. unfold uint8. apply Z.mod_small. change (2 ^ 8) with 256. lia. Qed.

(** The slot a call appends matches the name it was stored under, when
    the size fits the [uint8_t] of [name_sizes]. *)
Lemma appended_slot_matches name name_size value :
  0 <= name_size < 256 ->
  slot_matches (mkSymbol name (uint8 name_size) value) name name_size = true.
Proof.
  intros Hsize. unfold slot_matches. cbn [names name_sizes].
  rewrite (uint8_small _ Hsize), Z.eqb_refl, memcmp_eq_refl. reflexivity.
Qed.

(** X5. A value that was set is the value that is looked up: after a
    call of [set_identifier] that stays inside the arrays,
    [get_identifier] returns the value just stored for the same name
    and size, whether the call overwrote a slot or appended one.  The
    size has to fit the [uint8_t] it is stored in. *)
Theorem X5_get_after_set
  (symbols symbols' : SymbolTable) (name : list ascii) (name_size : Z) (value : Value) :
  0 <= name_size < 256 ->
  set_identifier symbols name name_size value = Stored symbols' ->
  get_identifier symbols' name name_size = value.
Proof.
  intros Hsize. unfold set_identifier.
  pose proof (overwrite_spec symbols name name_size value) as Hspec.
  destruct (overwrite symbols name name_size value) as [t|].
  - intros H; inversion H; subst. apply Hspec.
  - destruct (symbol_count symbols <? SYMBOL_CAPACITY)%nat; [|discriminate].
    intros H; inversion H; subst.
    rewrite get_identifier_app, Hspec. cbn [get_identifier].
    rewrite (appended_slot_matches _ _ _ Hsize). reflexivity.
Qed.

Lemma X5_get_after_set_witness :
  get_identifier (seeded ++ [mkSymbol (bytes "tau") (uint8 3) (Real 6.28125)])
    (bytes "tau") 3
  = Real 6.28125.
Proof.
  apply (X5_get_after_set seeded _ (bytes "tau") 3 (Real 6.28125));
    [lia|reflexivity].
Defined.

(** X6. The size of a name is stored in a [uint8_t]: a new name of 256
    bytes or more is appended under its size modulo 256, and the lookup
    of that same name and size does not find it. *)
Theorem X6_long_name_is_lost
  (symbols : SymbolTable) (name : list ascii) (name_size : Z) (value : Value) :
  256 <= name_size ->
  existsb (fun s => slot_matches s name name_size) symbols = false ->
  (symbol_count symbols < 64)%nat ->
  set_identifier symbols name name_size value
  = Stored (symbols ++ [mkSymbol name (name_size mod 256) value])
  /\ get_identifier (symbols ++ [mkSymbol name (name_size mod 256) value])
       name name_size
     = Error 0 "identifier not found".
Proof.
  intros Hsize Hmiss Hcount. split.
  - unfold set_identifier.
    pose proof (overwrite_spec symbols name name_size value) as Hspec.
    destruct (overwrite symbols name name_size value) as [t|].
    + destruct Hspec as [Hhit _]. congruence.
    + unfold SYMBOL_CAPACITY.
      destruct (Nat.ltb_spec (symbol_count symbols) 64); [reflexivity|lia].
  - rewrite get_identifier_app, Hmiss. cbn [get_identifier].
    unfold slot_matches. cbn [names name_sizes].
    pose proof (Z.mod_pos_bound name_size 256 ltac:(lia)) as Hmod.
    destruct (Z.eqb_spec (name_size mod 256) name_size) as [E|_]; [lia|reflexivity].
Qed.

Lemma X6_long_name_is_lost_witness :
  get_identifier (seeded ++ [mkSymbol (repeat "a"%char 300) (300 mod 256) Void])
    (repeat "a"%char 300) 300
  = Error 0 "identifier not found".
Proof.
  apply (X6_long_name_is_lost seeded (repeat "a"%char 300) 300 Void);
    [lia|reflexivity|vm_compute; lia].
Defined.

Lemma overwrite_other symbols name name_size value name' name_size' : forall symbols',
  overwrite symbols name name_size value = Some symbols' ->
  name_size' <> name_size \/ memcmp_eq name name' (Z.to_nat name_size) = false ->
  get_identifier symbols' name' name_size' = get_identifier symbols name' name_size'.
Proof.
  induction symbols as [|s symbols IH]; intros symbols'; cbn [overwrite];
    [discriminate|].
  destruct (slot_matches s name name_size) eqn:Em.
  - intros H Hother; inversion H; subst. cbn [get_identifier].
    unfold slot_matches in *. cbn [names name_sizes values].
    destruct ((name_sizes s =? name_size') && memcmp_eq (names s) name' (Z.to_nat name_size'))
      eqn:Em'; [|reflexivity].
    exfalso. apply andb_prop in Em. destruct Em as [Es Ec].
    apply andb_prop in Em'. destruct Em' as [Es' Ec'].
    apply Z.eqb_eq in Es. apply Z.eqb_eq in Es'.
    assert (name_size' = name_size) as E by lia.
    destruct Hother as [Hne|Hne]; [contradiction|].
    rewrite E in Ec'.
    rewrite (memcmp_eq_trans _ _ _ _ Ec Ec') in Hne. discriminate.
  - destruct (overwrite symbols name name_size value) as [t|]; [|discriminate].
    intros H Hother; inversion H; subst. cbn [get_identifier].
    destruct (slot_matches s name' name_size'); [reflexivity|].
    apply IH; [reflexivity|exact Hother].
Qed.

(** X7. Setting one name leaves every other name alone: a call of
    [set_identifier] for a name and size does not change what
    [get_identifier] returns for a different size, or for the same size
    and a name that differs in its first [name_size] bytes. *)
Theorem X7_set_keeps_other_names
  (symbols symbols' : SymbolTable) (name : list ascii) (name_size : Z) (value : Value)
  (name' : list ascii) (name_size' : Z) :
  0 <= name_size < 256 ->
  set_identifier symbols name name_size value = Stored symbols' ->
  name_size' <> name_size \/ memcmp_eq name name' (Z.to_nat name_size) = false ->
  get_identifier symbols' name' name_size' = get_identifier symbols name' name_size'.
Proof.
  intros Hsize Hset Hother. unfold set_identifier in Hset.
  destruct (overwrite symbols name name_size value) as [t|] eqn:Eo.
  - inversion Hset; subst. exact (overwrite_other _ _ _ _ _ _ _ Eo Hother).
  - destruct (symbol_count symbols <? SYMBOL_CAPACITY)%nat; [|discriminate].
    inversion Hset; subst. rewrite get_identifier_app.
    destruct (existsb (fun s => slot_matches s name' name_size') symbols) eqn:Ex;
      [reflexivity|].
    rewrite (get_identifier_miss _ _ _ Ex). cbn [get_identifier].
    unfold slot_matches. cbn [names name_sizes].
    rewrite (uint8_small _ Hsize).
    destruct (Z.eqb_spec name_size name_size') as [E|_]; [|reflexivity].
    subst name_size'. destruct Hother as [Hne|Hne]; [contradiction|].
    rewrite Hne. reflexivity.
Qed.

Lemma X7_set_keeps_other_names_witness :
  get_identifier (seeded ++ [mkSymbol (bytes "tau") (uint8 3) (Real 6.28125)])
    (bytes "pi") 2
  = get_identifier seeded (bytes "pi") 2.
Proof.
  apply (X7_set_keeps_other_names seeded _ (bytes "tau") 3 (Real 6.28125));
    [lia|reflexivity|left; lia].
Defined.




Lemma overwrite_slots symbols name name_size value : forall symbols',
  overwrite symbols name name_size value = Some symbols' ->
  map names symbols' = map names symbols
  /\ map name_sizes symbols' = map name_sizes symbols.
Proof.
  induction symbols as [|s symbols IH]; intros symbols'; cbn [overwrite];
    [discriminate|].
  destruct (slot_matches s name name_size).
  - intros H; inversion H; subst. split; reflexivity.
  - destruct (overwrite symbols name name_size value) as [t|]; [|discriminate].
    intros H; inversion H; subst. destruct (IH t eq_refl) as [H1 H2].
    cbn [map]. rewrite H1, H2. split; reflexivity.
Qed.

(** X9. [set_identifier] never removes or renames a slot: after a call
    that stays inside the arrays the names and sizes of the slots that
    were there are what they were, in the same order, and the count has
    not gone down and has grown by one at most, staying within 64. *)
Theorem X9_set_keeps_slots
  (symbols symbols' : SymbolTable) (name : list ascii) (name_size : Z) (value : Value) :
  set_identifier symbols name name_size value = Stored symbols' ->
  firstn (symbol_count symbols) (map names symbols') = map names symbols
  /\ firstn (symbol_count symbols) (map name_sizes symbols') = map name_sizes symbols
  /\ (symbol_count symbols <= symbol_count symbols' <= S (symbol_count symbols))%nat
  /\ ((symbol_count symbols <= 64)%nat -> (symbol_count symbols' <= 64)%nat).
Proof.
  unfold set_identifier, symbol_count, SYMBOL_CAPACITY.
  destruct (overwrite symbols name name_size value) as [t|] eqn:Eo.
  - intros H; inversion H; subst.
    destruct (overwrite_slots _ _ _ _ _ Eo) as [H1 H2].
    assert (List.length symbols' = List.length symbols) as Hlen.
    { rewrite <- (length_map names symbols'), H1. apply length_map. }
    split; [rewrite H1, <- (length_map names symbols); apply firstn_all|].
    split; [rewrite H2, <- (length_map name_sizes symbols); apply firstn_all|].
    lia.
  - destruct (Nat.ltb_spec (List.length symbols) 64) as [Hlt|]; [|discriminate].
    intros Hs; inversion Hs; subst.
    rewrite !map_app, length_app. cbn [List.length].
    split.
    { rewrite <- (length_map names symbols), firstn_app, firstn_all, Nat.sub_diag.
      cbn [firstn]. apply app_nil_r. }
    split.
    { rewrite <- (length_map name_sizes symbols), firstn_app, firstn_all, Nat.sub_diag.
      cbn [firstn]. apply app_nil_r. }
    lia.
Qed.

Lemma X9_set_keeps_slots_witness :
  (symbol_count seeded
   <= symbol_count (seeded ++ [mkSymbol (bytes "x") (uint8 1) (Real 1)])
   <= S (symbol_count seeded))%nat.
Proof.
  apply (X9_set_keeps_slots seeded _ (bytes "x") 1 (Real 1)). reflexivity.
Defined.

(** X10. The names the program knows.  In the table [main] builds, a
    name of size 1 whose byte is [e] is [M_E], a name of size 2 whose
    bytes are [pi] is [M_PI], and every other name and size gets
    "identifier not found" with offset 0. *)
Theorem X10_seeded_lookup (name : list ascii) (name_size : Z) :
  get_identifier seeded name name_size
  = if (name_size =? 1) && (hd NUL name =? "e")%char then Real M_E
    else if (name_size =? 2) && (hd NUL name =? "p")%char
            && (hd NUL (tl name) =? "i")%char then Real M_PI
    else Error 0 "identifier not found".
Proof.
  change seeded
    with [mkSymbol (bytes "e") 1 (Real M_E); mkSymbol (bytes "pi") 2 (Real M_PI)].
  cbn [get_identifier]. unfold slot_matches. cbn [names name_sizes values].
  rewrite (Z.eqb_sym 1 name_size), (Z.eqb_sym 2 name_size).
  rewrite (Ascii.eqb_sym (hd NUL name) "e"), (Ascii.eqb_sym (hd NUL name) "p"),
    (Ascii.eqb_sym (hd NUL (tl name)) "i").
  destruct (Z.eqb_spec name_size 1) as [->|H1].
  - change (Z.to_nat 1) with 1%nat. change (1 =? 2) with false.
    cbn [andb memcmp_eq bytes list_ascii_of_string hd tl].
    rewrite andb_true_r. destruct ("e" =? hd NUL name)%char; reflexivity.
  - cbn [andb]. destruct (Z.eqb_spec name_size 2) as [->|H2]; [|reflexivity].
    change (Z.to_nat 2) with 2%nat.
    cbn [andb memcmp_eq bytes list_ascii_of_string hd tl].
    rewrite andb_true_r. reflexivity.
Qed.

(** ** The evaluator *)

Lemma run_more_fuel pow tgamma symbols line fuel : forall c o k,
  run pow tgamma symbols line fuel c = Some o ->
  run pow tgamma symbols line (fuel + k) c = Some o.
Proof.
  induction fuel as [|fuel IH]; intros c o k; [discriminate|].
  cbn [run Nat.add].
  destruct (step pow tgamma symbols line c) as [o'|c']; [trivial|apply IH].
Qed.

(** X11. [evaluate_line] ends on every line, within one label body per
    byte of the line and one more: the run of [length line + 1] label
    bodies has an outcome, and any longer run has the same one. *)
Theorem X11_evaluate_line_ends
  (pow : float -> float -> float) (tgamma : float -> float)
  (symbols : SymbolTable) (line : list ascii) (fuel : nat) :
  (S (List.length line) <= fuel)%nat ->
  exists o,
    evaluate_line pow tgamma symbols line = Some o
    /\ run pow tgamma symbols line fuel initial = Some o.
Proof.
  intros Hfuel.
  destruct (evaluate_line_total pow tgamma symbols line) as [o Ho].
  exists o. split; [exact Ho|].
  replace fuel with (S (List.length line) + (fuel - S (List.length line)))%nat by lia.
  apply run_more_fuel. exact Ho.
Qed.

Lemma X11_evaluate_line_ends_witness :
  exists o,
    evaluate_line pow_by_multiplication (fun x => x) seeded (bytes "2*(3+4)") = Some o
    /\ run pow_by_multiplication (fun x => x) seeded (bytes "2*(3+4)") 100 initial
       = Some o.
Proof.
  apply (X11_evaluate_line_ends pow_by_multiplication (fun x => x) seeded
           (bytes "2*(3+4)") 100).
  simpl. lia.
Defined.

Section Diagnostics.

Variable pow : float -> float -> float.
Variable tgamma : float -> float.

Lemma fold_oper_diagnosed oper stk :
  forallb is_real stk = true ->
  diagnosed_post (fun s => s) (fold_oper pow oper stk).
Proof.
  unfold fold_oper, binary_operands, diagnosed_post.
  destruct (type oper); try reflexivity;
    destruct stk as [|[] [|[] stk']]; cbn; try discriminate; try reflexivity;
    intros H; try break_if; cbn; try reflexivity; exact H.
Qed.

Lemma fold_loop_diagnosed curr : forall ops stk,
  forallb is_real stk = true ->
  diagnosed_post snd (fold_loop pow curr ops stk).
Proof.
  induction ops as [|top rest IH]; intros stk Hreal; [reflexivity|].
  cbn [fold_loop]. break_if; [exact Hreal|].
  pose proof (fold_oper_diagnosed top stk Hreal) as Hf.
  destruct (fold_oper pow top stk) as [o|stk']; [exact Hf|].
  apply IH. exact Hf.
Qed.

Variable symbols : SymbolTable.
Variable line : list ascii.
Hypothesis symbols_real : all_real symbols = true.

Lemma step_diagnosed c :
  forallb is_real (stack (snd c)) = true ->
  diagnosed_post (fun c' => stack (snd c')) (step pow tgamma symbols line c).
Proof.
  destruct c as [[] st]; cbn [fst snd step]; intros Hreal.
  - unfold ExpectValue.
    pose proof (get_token_error line (it st)) as Herr.
    destruct (get_token line (it st)) as [curr it']. cbn [fst] in Herr.
    unfold push_value, push_oper.
    destruct (type curr) eqn:Etype; try reflexivity.
    + destruct (Herr eq_refl) as [E|E]; rewrite E; reflexivity.
    + break_if; [exact Hreal|reflexivity].
    + pose proof (get_identifier_real symbols
                    (skipn (Node_name curr) line) (size curr) symbols_real) as Hid.
      break_if; [|reflexivity].
      destruct (get_identifier symbols (skipn (Node_name curr) line) (size curr));
        [contradiction|rewrite Hid; reflexivity|exact Hreal].
    + break_if; [exact Hreal|reflexivity].
    + exact Hreal.
    + break_if; [exact Hreal|reflexivity].
  - unfold ExpectOperator.
    pose proof (get_token_error line (it st)) as Herr.
    destruct (get_token line (it st)) as [curr it']. cbn [fst] in Herr.
    pose proof (fold_loop_diagnosed curr (opers st) (stack st) Hreal) as Hfold.
    unfold push_oper.
    destruct (type curr) eqn:Etype;
      try (destruct (Herr eq_refl) as [E|E]; rewrite E; reflexivity);
      destruct (fold_loop pow curr (opers st) (stack st)) as [o|[opers1 stack1]];
      try exact Hfold; cbn [diagnosed_post snd] in Hfold; try reflexivity;
      try (break_if; [exact Hfold|reflexivity]).
    + (* NT_Newline *)
      break_if; [reflexivity|].
      destruct (rev stack1) as [|v vs] eqn:Erev; [reflexivity|].
      assert (is_real v = true) as Hv.
      { rewrite forallb_forall in Hfold. apply Hfold.
        apply in_rev. rewrite Erev. left. reflexivity. }
      destruct v; try discriminate. reflexivity.
    + (* NT_ClosePar *)
      destruct opers1 as [|top opers']; [reflexivity|].
      destruct (type top); try reflexivity. exact Hfold.
    + (* NT_Factorial *)
      destruct stack1 as [|[] stack']; try discriminate; try reflexivity.
      break_if; [reflexivity|exact Hfold].
Qed.

End Diagnostics.

(** X12. What a line can return.  With a table that holds real values
    only, the value [evaluate_line] returns is a real number or an error
    whose message is one of the ten diagnostics of the lexer, the table
    lookup and the evaluator; it is never a [DT_Void] value. *)
Theorem X12_returned_values
  (pow : float -> float -> float) (tgamma : float -> float)
  (symbols : SymbolTable) (line : list ascii) (v : Value) :
  all_real symbols = true ->
  evaluate_line pow tgamma symbols line = Some (Return v) ->
  (exists r, v = Real r)
  \/ (exists size msg, v = Error size msg /\ In msg diagnostics).
Proof.
  intros Hreal Hv.
  destruct (evaluate_line_outcome pow tgamma symbols line _ Hv) as (c & Hreach & Hc).
  pose proof (step_diagnosed pow tgamma symbols line Hreal c
                (reachable_real pow tgamma symbols line Hreal c Hreach)) as Hpost.
  rewrite Hc in Hpost. cbn [diagnosed_post diagnosed] in Hpost.
  destruct v as [|size msg|r]; [discriminate|right|left; exists r; reflexivity].
  exists size, msg. split; [reflexivity|].
  apply existsb_exists in Hpost. destruct Hpost as (m & Hin & Heq).
  apply String.eqb_eq in Heq. subst m. exact Hin.
Qed.

Lemma X12_returned_values_witness :
  (exists r, Error 2 "divide by zero" = Real r)
  \/ (exists size msg,
        Error 2 "divide by zero" = Error size msg /\ In msg diagnostics).
Proof.
  apply (X12_returned_values pow_by_multiplication (fun x => x) seeded (bytes "1 / 0"));
    vm_compute; reflexivity.
Defined.

Lemma get_token_pos line i :
  pos (fst (get_token line i)) = uint32 (Z.of_nat (token_start line i)).
Proof.
  unfold get_token, token_start.
  repeat match goal with
         | |- context [if ?b then _ else _] => destruct b
         | |- context [strtod ?s] => destruct (strtod s)
         end; reflexivity.
Qed.

Lemma within_mod line x m :
  0 < m -> within line x = true -> within line (x mod m) = true.
Proof.
  unfold within. intros Hm H. apply andb_prop in H. destruct H as [H0 H1].
  apply Z.leb_le in H0. apply Z.leb_le in H1.
  pose proof (Z.mod_pos_bound x m Hm). pose proof (Z.mod_le x m H0 Hm).
  apply andb_true_intro. split; apply Z.leb_le; lia.
Qed.

Lemma within_uint16 line x : within line x = true -> within line (uint16 x) = true.
Proof. apply within_mod. reflexivity. Qed.

Lemma within_token line i :
  (i <= List.length line)%nat ->
  within line (pos (fst (get_token line i))) = true.
Proof.
  intros Hi. rewrite get_token_pos. apply within_mod; [reflexivity|].
  pose proof (token_start_bounds line i Hi).
  unfold within. apply andb_true_intro. split; apply Z.leb_le; lia.
Qed.

Section Offsets.

Variable pow : float -> float -> float.
Variable tgamma : float -> float.
Variable symbols : SymbolTable.
Variable line : list ascii.

Lemma fold_oper_located oper stk :
  within line (pos oper) = true ->
  forallb (fun v => negb (is_error v)) stk = true ->
  match fold_oper pow oper stk with
  | inl o => located line o
  | inr stk' => forallb (fun v => negb (is_error v)) stk' = true
  end.
Proof.
  intros Hpos. apply within_uint16 in Hpos.
  unfold fold_oper, binary_operands, ERROR_VALUE.
  destruct (type oper); try exact I;
    destruct stk as [|[] [|[] stk']]; cbn; try discriminate;
    intros H; try break_if; cbn; try exact I; try exact Hpos; exact H.
Qed.

Lemma fold_loop_located curr : forall ops stk,
  positioned line ops stk ->
  match fold_loop pow curr ops stk with
  | inl o => located line o
  | inr (ops1, stk1) => positioned line ops1 stk1
  end.
Proof.
  induction ops as [|top rest IH]; intros stk [Hops Hstk]; [exact I|].
  cbn [fold_loop]. break_if; [split; assumption|].
  cbn [forallb] in Hops. apply andb_prop in Hops. destruct Hops as [Htop Hrest].
  pose proof (fold_oper_located top stk Htop Hstk) as Hf.
  destruct (fold_oper pow top stk) as [o|stk']; [exact Hf|].
  apply IH. split; assumption.
Qed.

Lemma step_located c :
  (it (snd c) <= List.length line)%nat ->
  positioned line (opers (snd c)) (stack (snd c)) ->
  match step pow tgamma symbols line c with
  | inl o => located line o
  | inr c' => positioned line (opers (snd c')) (stack (snd c'))
  end.
Proof.
  destruct c as [[] st]; cbn [fst snd step]; intros Hit [Hops Hstk].
  - unfold ExpectValue.
    pose proof (within_token line (it st) Hit) as Hpos.
    destruct (get_token line (it st)) as [curr it']. cbn [fst] in Hpos.
    pose proof (within_uint16 line _ Hpos) as Hpos16.
    unfold push_value, push_oper, ERROR_VALUE.
    destruct (type curr) eqn:Etype; cbn [located]; try exact Hpos16;
      try (break_if; cbn [located]; [|exact I]);
      cbn [snd opers stack]; unfold positioned; cbn [forallb set_type pos];
      try rewrite Hpos; try rewrite Hops; try rewrite Hstk; auto.
    destruct (get_identifier symbols (skipn (Node_name curr) line) (size curr));
      cbn [located snd opers stack forallb negb is_error Value_type];
      try exact Hpos16; rewrite ?Hops, ?Hstk; auto.
  - unfold ExpectOperator.
    pose proof (within_token line (it st) Hit) as Hpos.
    destruct (get_token line (it st)) as [curr it']. cbn [fst] in Hpos.
    pose proof (within_uint16 line _ Hpos) as Hpos16.
    pose proof (fold_loop_located curr (opers st) (stack st) (conj Hops Hstk)) as Hfold.
    unfold push_oper, ERROR_VALUE.
    destruct (type curr) eqn:Etype; cbn [located]; try exact Hpos16;
      destruct (fold_loop pow curr (opers st) (stack st)) as [o|[opers1 stack1]];
      try exact Hfold; destruct Hfold as [Hops1 Hstk1]; cbn [located];
      try exact Hpos16;
      try (break_if; cbn [located snd opers stack]; [|exact I];
           unfold positioned; cbn [forallb]; rewrite Hpos, Hops1, Hstk1; auto).
    + (* NT_Newline *)
      break_if; [exact Hpos16|].
      destruct (rev stack1) as [|v vs] eqn:Erev; [exact I|].
      assert (negb (is_error v) = true) as Hv.
      { rewrite forallb_forall in Hstk1. apply Hstk1.
        apply in_rev. rewrite Erev. left. reflexivity. }
      destruct v; try discriminate; exact I.
    + (* NT_ClosePar *)
      destruct opers1 as [|top opers']; [exact I|].
      cbn [forallb] in Hops1. apply andb_prop in Hops1.
      destruct (type top); cbn [located snd opers stack]; try exact Hpos16.
      split; [apply Hops1|exact Hstk1].
    + (* NT_Factorial *)
      destruct stack1 as [|[] stack']; cbn [located]; try exact I; try exact Hpos16.
      break_if; cbn [located snd opers stack]; [exact Hpos16|].
      split; [exact Hops1|exact Hstk1].
Qed.

Lemma reachable_positioned c :
  reachable pow tgamma symbols line c ->
  positioned line (opers (snd c)) (stack (snd c)).
Proof.
  induction 1 as [|c c' Hreach IH Hstep].
  { split; [|reflexivity]. cbn [initial snd opers forallb pos]. unfold within.
    rewrite andb_true_r. apply andb_true_intro. split; apply Z.leb_le; lia. }
  pose proof (step_located c
                (inv_it line c (reachable_invariant pow tgamma symbols line c Hreach))
                IH) as Hpost.
  rewrite Hstep in Hpost. exact Hpost.
Qed.

End Offsets.

(** X13. Every error is reported inside the line.  Whatever the table
    and the line, the offset of an error value that [evaluate_line]
    returns is an offset of the line or the end-of-line position just
    after it, so the caret [main] prints is never further right than one
    column past the line. *)
Theorem X13_error_offset_in_line
  (pow : float -> float -> float) (tgamma : float -> float)
  (symbols : SymbolTable) (line : list ascii) (size : Z) (msg : string) :
  evaluate_line pow tgamma symbols line = Some (Return (Error size msg)) ->
  0 <= size <= Z.of_nat (List.length line).
Proof.
  intros Hv.
  destruct (evaluate_line_outcome pow tgamma symbols line _ Hv) as (c & Hreach & Hc).
  pose proof (step_located pow tgamma symbols line c
                (inv_it line c (reachable_invariant pow tgamma symbols line c Hreach))
                (reachable_positioned pow tgamma symbols line c Hreach)) as Hpost.
  rewrite Hc in Hpost. cbn [located] in Hpost.
  unfold within in Hpost. apply andb_prop in Hpost. destruct Hpost as [H0 H1].
  apply Z.leb_le in H0. apply Z.leb_le in H1. lia.
Qed.

Lemma X13_error_offset_in_line_witness :
  0 <= 8 <= Z.of_nat (List.length (bytes "1 + (2 *")).
Proof.
  apply (X13_error_offset_in_line pow_by_multiplication (fun x => x) seeded
           (bytes "1 + (2 *") 8 "expected value").
  vm_compute. reflexivity.
Defined.

(** ** Lines of one and of two numbers *)

Lemma token_start_here line p :
  is_blank (nth p line NUL) = false -> token_start line p = p.
Proof.
  intros H. unfold token_start.
  rewrite (span_len_unique is_blank (skipn p line) 0); [lia|intros k Hk; lia|].
  rewrite nth_skipn, Nat.add_0_r. exact H.
Qed.

Lemma get_token_from line i p :
  (i <= p)%nat -> blank_between line i p ->
  is_blank (nth p line NUL) = false ->
  get_token line i = get_token line p /\ token_start line p = p.
Proof.
  intros Hip Hblank Hstop. split; [|apply token_start_here; exact Hstop].
  unfold get_token. cbv zeta.
  pose proof (token_start_skip line i p Hip Hblank) as Hstart.
  unfold token_start in Hstart. rewrite Hstart. reflexivity.
Qed.

Lemma digit_first_byte c :
  is_digit c = true ->
  (c =? NUL)%char || (c =? LF)%char = false /\ is_blank c = false.
Proof.
  destruct c as [[] [] [] [] [] [] [] []]; vm_compute; intros H;
    try discriminate H; split; reflexivity.
Qed.

Lemma get_token_number_at line p :
  token_start line p = p ->
  is_digit (nth p line NUL) = true ->
  get_token line p
  = (mkNode NT_Number 0 (uint32 (Z.of_nat p)) (U_real (fst (strtod (skipn p line)))),
     (p + snd (strtod (skipn p line)))%nat).
Proof.
  intros Hstart Hdigit. unfold get_token. cbv zeta.
  change (p + span_len is_blank (skipn p line))%nat with (token_start line p).
  rewrite Hstart, (proj1 (digit_first_byte _ Hdigit)), Hdigit.
  destruct (strtod (skipn p line)); reflexivity.
Qed.

Lemma get_token_newline_at line p :
  token_start line p = p ->
  line_end line p ->
  get_token line p = (mkNode NT_Newline 0 (uint32 (Z.of_nat p)) U_zero, (p + 1)%nat).
Proof.
  intros Hstart Hend. unfold get_token. cbv zeta.
  change (p + span_len is_blank (skipn p line))%nat with (token_start line p).
  rewrite Hstart. destruct Hend as [E|E]; rewrite E; reflexivity.
Qed.

Lemma line_end_not_blank line e : line_end line e -> is_blank (nth e line NUL) = false.
Proof. intros [E|E]; rewrite E; reflexivity. Qed.

(** X14. An empty or blank line is an error, not a value: when only
    blanks and tabs stand before the end of the line, [evaluate_line]
    returns "expected value" at the offset of the end of the line. *)
Theorem X14_blank_line
  (pow : float -> float -> float) (tgamma : float -> float)
  (symbols : SymbolTable) (line : list ascii) (e : nat) :
  blank_between line 0 e ->
  line_end line e ->
  evaluate_line pow tgamma symbols line
  = Some (Return (ERROR_VALUE "expected value" (uint32 (Z.of_nat e)))).
Proof.
  intros Hblank Hend.
  destruct (get_token_from line 0 e ltac:(lia) Hblank (line_end_not_blank _ _ Hend))
    as [Hfrom Hstart].
  unfold evaluate_line. cbn [run]. unfold step, initial. cbn [fst snd].
  unfold ExpectValue. cbn [it].
  rewrite Hfrom, (get_token_newline_at line e Hstart Hend). reflexivity.
Qed.

Lemma X14_blank_line_witness :
  evaluate_line pow_by_multiplication (fun x => x) seeded (bytes "   ")
  = Some (Return (ERROR_VALUE "expected value" (uint32 3))).
Proof.
  apply (X14_blank_line pow_by_multiplication (fun x => x) seeded (bytes "   ") 3).
  - intros k Hk.
    assert (k = 0 \/ k = 1 \/ k = 2)%nat as Hcases by lia.
    destruct Hcases as [E|[E|E]]; subst k; reflexivity.
  - left. reflexivity.
Defined.

(** X15. A number alone on a line evaluates to itself: with blanks and
    tabs allowed before and after it and the line ending after those,
    [evaluate_line] returns the real value [strtod] reads at the first
    digit. *)
Theorem X15_number_line
  (pow : float -> float -> float) (tgamma : float -> float)
  (symbols : SymbolTable) (line : list ascii) (p e : nat) :
  blank_between line 0 p ->
  is_digit (nth p line NUL) = true ->
  blank_between line (p + snd (strtod (skipn p line))) e ->
  (p + snd (strtod (skipn p line)) <= e)%nat ->
  line_end line e ->
  evaluate_line pow tgamma symbols line
  = Some (Return (Real (fst (strtod (skipn p line))))).
Proof.
  intros Hblank Hdigit Hafter Hle Hend.
  destruct (get_token_from line 0 p ltac:(lia) Hblank
              (proj2 (digit_first_byte _ Hdigit))) as [Hfrom Hstart].
  destruct (get_token_from line _ e Hle Hafter (line_end_not_blank _ _ Hend))
    as [Hfrom' Hstart'].
  assert (p < List.length line)%nat as Hin.
  { apply nth_in_line. pose proof (proj1 (digit_first_byte _ Hdigit)) as H.
    apply orb_false_elim in H. apply H. }
  assert (run pow tgamma symbols line 2 initial
          = Some (Return (Real (fst (strtod (skipn p line)))))) as Hrun.
  { cbn [run]. unfold step, initial. cbn [fst snd].
    unfold ExpectValue. cbn [it].
    rewrite Hfrom, (get_token_number_at line p Hstart Hdigit).
    cbn [type push_value List.length Nat.ltb Nat.leb fst snd stack opers Node_real payload].
    unfold ExpectOperator. cbn [it].
    rewrite Hfrom', (get_token_newline_at line e Hstart' Hend). reflexivity. }
  unfold evaluate_line.
  replace (S (List.length line)) with (2 + (List.length line - 1))%nat by lia.
  apply run_more_fuel. exact Hrun.
Qed.

Lemma X15_number_line_witness :
  evaluate_line pow_by_multiplication (fun x => x) seeded (bytes " 2.5e1 ")
  = Some (Return (Real (fst (strtod (skipn 1 (bytes " 2.5e1 ")))))).
Proof.
  apply (X15_number_line pow_by_multiplication (fun x => x) seeded
           (bytes " 2.5e1 ") 1 7).
  - intros k Hk. assert (k = 0)%nat as E by lia. subst k. reflexivity.
  - reflexivity.
  - intros k Hk. vm_compute in Hk. assert (k = 6)%nat as E by lia. subst k. reflexivity.
  - vm_compute. lia.
  - left. reflexivity.
Defined.

(** The token of one of the four operator bytes [+ - * /], and its
    fold. *)
Lemma get_token_operator_at pow line p o :
  token_start line p = p ->
  nth p line NUL = o ->
  In o ["+"; "-"; "*"; "/"]%char ->
  exists t,
    get_token line p = (mkNode t 0 (uint32 (Z.of_nat p)) U_zero, (p + 1)%nat)
    /\ t = (if (o =? "+")%char then NT_Add
            else if (o =? "-")%char then NT_Subtract
            else if (o =? "*")%char then NT_Multiply
            else NT_Divide)
    /\ binary t = true
    /\ left (get_prec t) >= 50
    /\ right (get_prec t) >= 50
    /\ forall a b stk,
         fold_oper pow (mkNode t 0 (uint32 (Z.of_nat p)) U_zero)
           (Real b :: Real a :: stk)
         = if (o =? "/")%char && (b =? 0)%float
           then inl (Return (ERROR_VALUE "divide by zero" (uint32 (Z.of_nat p))))
           else inr (Real (arithmetic o a b) :: stk).
Proof.
  intros Hstart Hbyte Ho.
  unfold get_token. cbv zeta.
  change (p + span_len is_blank (skipn p line))%nat with (token_start line p).
  rewrite Hstart, Hbyte.
  cbn [In] in Ho.
  destruct Ho as [<-|[<-|[<-|[<-|[]]]]];
    [exists NT_Add|exists NT_Subtract|exists NT_Multiply|exists NT_Divide];
    (split; [reflexivity|]); (split; [reflexivity|]); (split; [reflexivity|]);
    (split; [vm_compute; discriminate|]); (split; [vm_compute; discriminate|]);
    intros a b stk; unfold fold_oper; cbn [type binary_operands pos];
    reflexivity.
Qed.

(** X16. A line of two numbers around one of [+ - * /], with blanks and
    tabs allowed around each token, evaluates to the C operator applied
    to the two values [strtod] reads, left operand first; a division
    whose right operand compares equal to zero returns "divide by zero"
    at the offset of the [/]. *)
Theorem X16_binary_line
  (pow : float -> float -> float) (tgamma : float -> float)
  (symbols : SymbolTable) (line : list ascii) (p1 p2 p3 e : nat) (o : ascii) :
  let a := fst (strtod (skipn p1 line)) in
  let q1 := (p1 + snd (strtod (skipn p1 line)))%nat in
  let b := fst (strtod (skipn p3 line)) in
  let q3 := (p3 + snd (strtod (skipn p3 line)))%nat in
  blank_between line 0 p1 ->
  is_digit (nth p1 line NUL) = true ->
  (q1 <= p2)%nat -> blank_between line q1 p2 ->
  nth p2 line NUL = o -> In o ["+"; "-"; "*"; "/"]%char ->
  (p2 + 1 <= p3)%nat -> blank_between line (p2 + 1) p3 ->
  is_digit (nth p3 line NUL) = true ->
  (q3 <= e)%nat -> blank_between line q3 e ->
  line_end line e ->
  evaluate_line pow tgamma symbols line
  = Some (Return (if (o =? "/")%char && (b =? 0)%float
                  then ERROR_VALUE "divide by zero" (uint32 (Z.of_nat p2))
                  else Real (arithmetic o a b))).
Proof.
  intros a q1 b q3 Hb1 Hd1 Hle2 Hb2 Ho Hin Hle3 Hb3 Hd3 Hle4 Hb4 Hend.
  destruct (get_token_from line 0 p1 ltac:(lia) Hb1
              (proj2 (digit_first_byte _ Hd1))) as [Hfrom1 Hs1].
  assert (is_blank (nth p2 line NUL) = false) as Hnb2.
  { rewrite Ho. cbn [In] in Hin.
    destruct Hin as [<-|[<-|[<-|[<-|[]]]]]; reflexivity. }
  destruct (get_token_from line q1 p2 Hle2 Hb2 Hnb2) as [Hfrom2 Hs2].
  destruct (get_token_from line (p2 + 1) p3 Hle3 Hb3
              (proj2 (digit_first_byte _ Hd3))) as [Hfrom3 Hs3].
  destruct (get_token_from line q3 e Hle4 Hb4 (line_end_not_blank _ _ Hend))
    as [Hfrom4 Hs4].
  destruct (get_token_operator_at pow line p2 o Hs2 Ho Hin)
    as (t & Htok & _ & Hbin & Hleft & Hright & Hfold).
  assert (p3 < List.length line)%nat as Hlen.
  { apply nth_in_line. pose proof (proj1 (digit_first_byte _ Hd3)) as H.
    apply orb_false_elim in H. apply H. }
  pose proof (strtod_consumes (nth p1 line NUL) (skipn (S p1) line) Hd1) as Hn1.
  assert (p1 < List.length line)%nat as Hlen1.
  { apply nth_in_line. pose proof (proj1 (digit_first_byte _ Hd1)) as H.
    apply orb_false_elim in H. apply H. }
  rewrite <- (skipn_nth_cons line p1 Hlen1) in Hn1.
  unfold evaluate_line.
  replace (S (List.length line)) with (4 + (List.length line - 3))%nat
    by (unfold q1 in Hle2; lia).
  apply run_more_fuel.
  cbn [run]. unfold step, initial. cbn [fst snd].
  unfold ExpectValue at 1. cbn [it].
  rewrite Hfrom1, (get_token_number_at line p1 Hs1 Hd1).
  cbn [type push_value List.length Nat.ltb Nat.leb fst snd stack opers Node_real payload].
  unfold ExpectOperator at 1. cbn [it]. fold q1.
  rewrite Hfrom2, Htok. cbn [type opers stack fold_loop get_prec right].
  destruct (Z.ltb_spec 0 (left (get_prec t))) as [_|Hbad]; [|lia].
  assert (push_oper (mkNode t 0 (uint32 (Z.of_nat p2)) U_zero)
            [mkNode NT_Global 0 0 U_zero]
          = inr [mkNode t 0 (uint32 (Z.of_nat p2)) U_zero; mkNode NT_Global 0 0 U_zero])
    as Hpush by reflexivity.
  destruct t; try discriminate Hbin; rewrite Hpush; cbn [fst snd];
    unfold ExpectValue; cbn [it];
    rewrite Hfrom3, (get_token_number_at line p3 Hs3 Hd3);
    cbn [type push_value List.length Nat.ltb Nat.leb fst snd stack opers
         Node_real payload];
    unfold ExpectOperator; cbn [it]; fold q3;
    rewrite Hfrom4, (get_token_newline_at line e Hs4 Hend);
    cbn [type opers stack fold_loop get_prec right left Z.ltb Z.compare];
    rewrite Hfold; fold a b;
    destruct ((o =? "/")%char && (b =? 0)%float); reflexivity.
Qed.

Lemma X16_binary_line_witness :
  evaluate_line pow_by_multiplication (fun x => x) seeded (bytes "7 / 2")
  = Some (Return (Real 3.5)).
Proof.
  apply (X16_binary_line pow_by_multiplication (fun x => x) seeded
           (bytes "7 / 2") 0 2 4 5 "/"%char);
    try (intros k Hk; vm_compute in Hk;
         first [lia
               |assert (k = 1)%nat as E by lia; subst k; reflexivity
               |assert (k = 3)%nat as E by lia; subst k; reflexivity]);
    try reflexivity; try (vm_compute; lia);
    try (left; reflexivity); try (cbn [In]; tauto).
Defined.

Section Stepping.

Variable pow : float -> float -> float.
Variable tgamma : float -> float.
Variable symbols : SymbolTable.
Variable line : list ascii.

Lemma run_goto fuel c c' :
  step pow tgamma symbols line c = inr c' ->
  run pow tgamma symbols line (S fuel) c = run pow tgamma symbols line fuel c'.
Proof. intros H. cbn [run]. rewrite H. reflexivity. Qed.

Lemma run_return fuel c o :
  step pow tgamma symbols line c = inl o ->
  run pow tgamma symbols line (S fuel) c = Some o.
Proof. intros H. cbn [run]. rewrite H. reflexivity. Qed.

Lemma step_number i ops stk x r q :
  get_token line i = (mkNode NT_Number 0 x (U_real r), q) ->
  (List.length stk < 64)%nat ->
  step pow tgamma symbols line (L_ExpectValue, mkState i ops stk)
  = inr (L_ExpectOperator, mkState q ops (Real r :: stk)).
Proof.
  intros Htok Hlen. cbn [step fst snd]. unfold ExpectValue, push_value.
  cbn [it opers stack]. rewrite Htok. cbn [type Node_real payload].
  destruct (Nat.ltb_spec (List.length stk) 64); [reflexivity|lia].
Qed.

Lemma step_binary i ops stk tok q ops1 stk1 :
  get_token line i = (tok, q) ->
  binary (type tok) = true ->
  fold_loop pow tok ops stk = inr (ops1, stk1) ->
  (List.length ops1 < 64)%nat ->
  step pow tgamma symbols line (L_ExpectOperator, mkState i ops stk)
  = inr (L_ExpectValue, mkState q (tok :: ops1) stk1).
Proof.
  intros Htok Hbin Hfold Hlen. cbn [step fst snd]. unfold ExpectOperator, push_oper.
  cbn [it opers stack]. rewrite Htok, Hfold.
  destruct (Nat.ltb_spec (List.length ops1) 64); [|lia].
  destruct (type tok); try discriminate Hbin; reflexivity.
Qed.

Lemma step_newline i ops stk tok q g stk1 v rest :
  get_token line i = (tok, q) ->
  type tok = NT_Newline ->
  fold_loop pow tok ops stk = inr ([g], stk1) ->
  rev stk1 = v :: rest ->
  step pow tgamma symbols line (L_ExpectOperator, mkState i ops stk)
  = inl (Return v).
Proof.
  intros Htok Htype Hfold Hrev. cbn [step fst snd]. unfold ExpectOperator.
  cbn [it opers stack]. rewrite Htok, Htype, Hfold. cbn [List.length Nat.eqb negb].
  rewrite Hrev. reflexivity.
Qed.

End Stepping.

Lemma digit_in_line line p :
  is_digit (nth p line NUL) = true -> (p < List.length line)%nat.
Proof.
  intros Hd. apply nth_in_line.
  pose proof (proj1 (digit_first_byte _ Hd)) as H.
  apply orb_false_elim in H. apply H.
Qed.

Lemma number_consumes line p :
  is_digit (nth p line NUL) = true ->
  (1 <= snd (strtod (skipn p line)))%nat.
Proof.
  intros Hd.
  pose proof (strtod_consumes (nth p line NUL) (skipn (S p) line) Hd) as Hn.
  rewrite <- (skipn_nth_cons line p (digit_in_line line p Hd)) in Hn. lia.
Qed.

(** X17. Precedence and associativity on three numbers.  A line
    [a o1 b o2 c] of three numbers and two of the operators [+ - * /]
    evaluates to [a o1 (b o2 c)] when [o2] is [*] or [/] and [o1] is [+]
    or [-], and to [(a o1 b) o2 c] in every other case: multiplication
    and division bind tighter, and equal precedence groups from the
    left.  (Stated for right operands that do not compare equal to
    zero, so that no division fails.) *)
Theorem X17_three_numbers
  (pow : float -> float -> float) (tgamma : float -> float)
  (symbols : SymbolTable) (line : list ascii) (p1 p2 p3 p4 p5 e : nat) (o1 o2 : ascii) :
  let a := fst (strtod (skipn p1 line)) in
  let q1 := (p1 + snd (strtod (skipn p1 line)))%nat in
  let b := fst (strtod (skipn p3 line)) in
  let q3 := (p3 + snd (strtod (skipn p3 line)))%nat in
  let c := fst (strtod (skipn p5 line)) in
  let q5 := (p5 + snd (strtod (skipn p5 line)))%nat in
  blank_between line 0 p1 -> is_digit (nth p1 line NUL) = true ->
  (q1 <= p2)%nat -> blank_between line q1 p2 ->
  nth p2 line NUL = o1 -> In o1 ["+"; "-"; "*"; "/"]%char ->
  (p2 + 1 <= p3)%nat -> blank_between line (p2 + 1) p3 ->
  is_digit (nth p3 line NUL) = true ->
  (q3 <= p4)%nat -> blank_between line q3 p4 ->
  nth p4 line NUL = o2 -> In o2 ["+"; "-"; "*"; "/"]%char ->
  (p4 + 1 <= p5)%nat -> blank_between line (p4 + 1) p5 ->
  is_digit (nth p5 line NUL) = true ->
  (q5 <= e)%nat -> blank_between line q5 e -> line_end line e ->
  (b =? 0)%float = false -> (c =? 0)%float = false ->
  evaluate_line pow tgamma symbols line
  = Some (Return (Real (if tighter o1 o2
                        then arithmetic o1 a (arithmetic o2 b c)
                        else arithmetic o2 (arithmetic o1 a b) c))).
Proof.
  intros a q1 b q3 c q5 Hb1 Hd1 Hle2 Hb2 Ho1 Hin1 Hle3 Hb3 Hd3 Hle4 Hb4 Ho2 Hin2
    Hle5 Hb5 Hd5 Hle6 Hb6 Hend Hbz Hcz.
  assert (forall o, In o ["+"; "-"; "*"; "/"]%char -> is_blank o = false) as Hnb.
  { intros o Hin. cbn [In] in Hin.
    destruct Hin as [<-|[<-|[<-|[<-|[]]]]]; reflexivity. }
  destruct (get_token_from line 0 p1 ltac:(lia) Hb1
              (proj2 (digit_first_byte _ Hd1))) as [T1 Hs1].
  destruct (get_token_from line q1 p2 Hle2 Hb2
              ltac:(rewrite Ho1; exact (Hnb o1 Hin1))) as [T2 Hs2].
  destruct (get_token_from line (p2 + 1) p3 Hle3 Hb3
              (proj2 (digit_first_byte _ Hd3))) as [T3 Hs3].
  destruct (get_token_from line q3 p4 Hle4 Hb4
              ltac:(rewrite Ho2; exact (Hnb o2 Hin2))) as [T4 Hs4].
  destruct (get_token_from line (p4 + 1) p5 Hle5 Hb5
              (proj2 (digit_first_byte _ Hd5))) as [T5 Hs5].
  destruct (get_token_from line q5 e Hle6 Hb6 (line_end_not_blank _ _ Hend))
    as [T6 Hs6].
  pose proof (number_consumes line p1 Hd1) as Hn1.
  pose proof (number_consumes line p3 Hd3) as Hn3.
  pose proof (digit_in_line line p5 Hd5) as Hlen.
  destruct (get_token_operator_at pow line p2 o1 Hs2 Ho1 Hin1)
    as (t1 & Htok1 & Et1 & _).
  destruct (get_token_operator_at pow line p4 o2 Hs4 Ho2 Hin2)
    as (t2 & Htok2 & Et2 & _).
  rewrite (get_token_number_at line p1 Hs1 Hd1) in T1.
  rewrite Htok1 in T2.
  rewrite (get_token_number_at line p3 Hs3 Hd3) in T3.
  rewrite Htok2 in T4.
  rewrite (get_token_number_at line p5 Hs5 Hd5) in T5.
  rewrite (get_token_newline_at line e Hs6 Hend) in T6.
  fold a q1 in T1. fold b q3 in T3. fold c q5 in T5.
  unfold evaluate_line.
  replace (S (List.length line)) with (6 + (List.length line - 5))%nat
    by (unfold q1, q3 in *; lia).
  apply run_more_fuel.
  clear Hs1 Hs2 Hs3 Hs4 Hs5 Hs6 Hb1 Hb2 Hb3 Hb4 Hb5 Hb6 Hd1 Hd3 Hd5 Hend Hnb
    Ho1 Ho2 Hle2 Hle3 Hle4 Hle5 Hle6 Hn1 Hn3 Hlen Htok1 Htok2.
  set (x1 := uint32 (Z.of_nat p1)) in *. set (x2 := uint32 (Z.of_nat p2)) in *.
  set (x3 := uint32 (Z.of_nat p3)) in *. set (x4 := uint32 (Z.of_nat p4)) in *.
  set (x5 := uint32 (Z.of_nat p5)) in *. set (x6 := uint32 (Z.of_nat e)) in *.
  clearbody a b c q1 q3 q5 x1 x2 x3 x4 x5 x6.
  subst t1 t2. unfold initial. cbn [In] in Hin1, Hin2.
  erewrite run_goto by (eapply step_number; [exact T1|simpl; lia]).
  destruct Hin1 as [<-|[<-|[<-|[<-|[]]]]];
    destruct Hin2 as [<-|[<-|[<-|[<-|[]]]]];
    cbv beta iota delta [Ascii.eqb Bool.eqb] in T2, T4;
    (erewrite run_goto
       by (eapply step_binary; [exact T2|reflexivity|reflexivity|simpl; lia]));
    (erewrite run_goto by (eapply step_number; [exact T3|simpl; lia]));
    (erewrite run_goto
       by (eapply step_binary;
           [exact T4|reflexivity
           |cbn [fold_loop fold_oper binary_operands type get_prec right left
                 Z.ltb Z.compare Pos.compare Pos.compare_cont];
            rewrite ?Hbz; reflexivity
           |simpl; lia]));
    (erewrite run_goto by (eapply step_number; [exact T5|simpl; lia]));
    (erewrite run_return
       by (eapply step_newline;
           [exact T6|reflexivity
           |cbn [fold_loop fold_oper binary_operands type get_prec right left
                 Z.ltb Z.compare Pos.compare Pos.compare_cont];
            rewrite ?Hbz, ?Hcz;
            cbn [fold_loop fold_oper binary_operands type get_prec right left
                 Z.ltb Z.compare Pos.compare Pos.compare_cont];
            rewrite ?Hbz, ?Hcz; reflexivity
           |reflexivity]));
    reflexivity.
Qed.

Lemma X17_three_numbers_witness :
  evaluate_line pow_by_multiplication (fun x => x) seeded (bytes "8-2*3")
  = Some (Return (Real 2)).
Proof.
  apply (X17_three_numbers pow_by_multiplication (fun x => x) seeded
           (bytes "8-2*3") 0 1 2 3 4 5 "-"%char "*"%char);
    try (intros k Hk; vm_compute in Hk; lia);
    try reflexivity; try (vm_compute; lia);
    try (left; reflexivity); try (cbn [In]; tauto).
Defined.

(** ** Unary minus, factorial and the invariant of the stacks *)

Lemma get_token_single_at line p o :
  token_start line p = p ->
  nth p line NUL = o ->
  In o ["("; ")"; "+"; "-"; "*"; "/"; "^"; "!"]%char ->
  get_token line p
  = (mkNode (single_kind o) 0 (uint32 (Z.of_nat p)) U_zero, (p + 1)%nat)
  /\ is_blank o = false.
Proof.
  intros Hstart Hbyte Ho.
  unfold get_token. cbv zeta.
  change (p + span_len is_blank (skipn p line))%nat with (token_start line p).
  rewrite Hstart, Hbyte. cbn [In] in Ho.
  destruct Ho as [<-|[<-|[<-|[<-|[<-|[<-|[<-|[<-|[]]]]]]]]]; split; reflexivity.
Qed.

Section SteppingSigns.

Variable pow : float -> float -> float.
Variable tgamma : float -> float.
Variable symbols : SymbolTable.
Variable line : list ascii.

Lemma step_minus i ops stk x q :
  get_token line i = (mkNode NT_Subtract 0 x U_zero, q) ->
  (List.length ops < 64)%nat ->
  step pow tgamma symbols line (L_ExpectValue, mkState i ops stk)
  = inr (L_ExpectValue, mkState q (mkNode NT_Minus 0 x U_zero :: ops) stk).
Proof.
  intros Htok Hlen. cbn [step fst snd]. unfold ExpectValue, push_oper.
  cbn [it opers stack]. rewrite Htok. cbn [type set_type size pos payload].
  destruct (Nat.ltb_spec (List.length ops) 64); [reflexivity|lia].
Qed.

Lemma step_factorial i ops stk x q ops1 r stk1 :
  get_token line i = (mkNode NT_Factorial 0 x U_zero, q) ->
  fold_loop pow (mkNode NT_Factorial 0 x U_zero) ops stk = inr (ops1, Real r :: stk1) ->
  step pow tgamma symbols line (L_ExpectOperator, mkState i ops stk)
  = if (r <? 0)%float
    then inl (Return (ERROR_VALUE "factorial of negative number" x))
    else inr (L_ExpectOperator, mkState q ops1 (Real (tgamma (1 + r)%float) :: stk1)).
Proof.
  intros Htok Hfold. cbn [step fst snd]. unfold ExpectOperator.
  cbn [it opers stack]. rewrite Htok. cbn [type pos]. rewrite Hfold. reflexivity.
Qed.

End SteppingSigns.

(** X18. Factorial is the gamma function one further on.  A number
    followed by [!], with blanks and tabs allowed around both, evaluates
    to [tgamma(1.0 + a)] for the value [a] that [strtod] reads, and to
    the error "factorial of negative number" at the offset of the [!]
    if [a] compares below zero. *)
Theorem X18_factorial_line
  (pow : float -> float -> float) (tgamma : float -> float)
  (symbols : SymbolTable) (line : list ascii) (p1 p2 e : nat) :
  let a := fst (strtod (skipn p1 line)) in
  let q1 := (p1 + snd (strtod (skipn p1 line)))%nat in
  blank_between line 0 p1 -> is_digit (nth p1 line NUL) = true ->
  (q1 <= p2)%nat -> blank_between line q1 p2 ->
  nth p2 line NUL = "!"%char ->
  (p2 + 1 <= e)%nat -> blank_between line (p2 + 1) e -> line_end line e ->
  evaluate_line pow tgamma symbols line
  = Some (Return (if (a <? 0)%float
                  then ERROR_VALUE "factorial of negative number" (uint32 (Z.of_nat p2))
                  else Real (tgamma (1 + a)%float))).
Proof.
  intros a q1 Hb1 Hd1 Hle2 Hb2 Ho Hle3 Hb3 Hend.
  destruct (get_token_from line 0 p1 ltac:(lia) Hb1
              (proj2 (digit_first_byte _ Hd1))) as [T1 Hs1].
  destruct (get_token_from line q1 p2 Hle2 Hb2 ltac:(rewrite Ho; reflexivity))
    as [T2 Hs2].
  destruct (get_token_from line (p2 + 1) e Hle3 Hb3 (line_end_not_blank _ _ Hend))
    as [T3 Hs3].
  rewrite (get_token_number_at line p1 Hs1 Hd1) in T1.
  rewrite (proj1 (get_token_single_at line p2 _ Hs2 Ho
                    ltac:(cbn [In]; tauto))) in T2.
  rewrite (get_token_newline_at line e Hs3 Hend) in T3.
  change (single_kind "!") with NT_Factorial in T2.
  pose proof (number_consumes line p1 Hd1) as Hn1.
  assert (p2 < List.length line)%nat as Hlen.
  { apply nth_in_line. rewrite Ho. reflexivity. }
  fold a q1 in T1.
  unfold evaluate_line, initial.
  replace (S (List.length line)) with (3 + (List.length line - 2))%nat
    by (unfold q1 in *; lia).
  apply run_more_fuel.
  erewrite run_goto by (eapply step_number; [exact T1|simpl; lia]).
  cbn [run].
  rewrite (step_factorial pow tgamma symbols line q1
             [mkNode NT_Global 0 0 U_zero] [Real a] _ _
             [mkNode NT_Global 0 0 U_zero] a [] T2 eq_refl).
  destruct (a <? 0)%float; [reflexivity|].
  erewrite step_newline; [reflexivity|exact T3|reflexivity|reflexivity|reflexivity].
Qed.

Lemma X18_factorial_line_witness :
  evaluate_line pow_by_multiplication (fun x => x) seeded (bytes "3 !")
  = Some (Return (Real 4)).
Proof.
  apply (X18_factorial_line pow_by_multiplication (fun x => x) seeded
           (bytes "3 !") 0 2 3);
    try (intros k Hk; vm_compute in Hk;
         first [lia|assert (k = 1)%nat as E by lia; subst k; reflexivity]);
    try reflexivity; try (vm_compute; lia); left; reflexivity.
Defined.

(** X19. Unary minus binds tighter than [+ - * /] and looser than [^].
    A line [- a o b] of a minus sign, a number, an operator and a
    number evaluates to [(-a) o b] when [o] is one of [+ - * /], and to
    [-(pow(a, b))] when [o] is [^].  (Stated for [b] that does not
    compare equal to zero and [a] that does not compare below zero, so
    that neither guard fails.) *)
Theorem X19_unary_minus_line
  (pow : float -> float -> float) (tgamma : float -> float)
  (symbols : SymbolTable) (line : list ascii) (p0 p1 p2 p3 e : nat) (o : ascii) :
  let a := fst (strtod (skipn p1 line)) in
  let q1 := (p1 + snd (strtod (skipn p1 line)))%nat in
  let b := fst (strtod (skipn p3 line)) in
  let q3 := (p3 + snd (strtod (skipn p3 line)))%nat in
  blank_between line 0 p0 -> nth p0 line NUL = "-"%char ->
  (p0 + 1 <= p1)%nat -> blank_between line (p0 + 1) p1 ->
  is_digit (nth p1 line NUL) = true ->
  (q1 <= p2)%nat -> blank_between line q1 p2 ->
  nth p2 line NUL = o -> In o ["+"; "-"; "*"; "/"; "^"]%char ->
  (p2 + 1 <= p3)%nat -> blank_between line (p2 + 1) p3 ->
  is_digit (nth p3 line NUL) = true ->
  (q3 <= e)%nat -> blank_between line q3 e -> line_end line e ->
  (b =? 0)%float = false -> (a <? 0)%float = false ->
  evaluate_line pow tgamma symbols line
  = Some (Return (Real (if (o =? "^")%char then (- pow a b)%float
                        else arithmetic o (- a)%float b))).
Proof.
  intros a q1 b q3 Hb0 Hm Hle1 Hb1 Hd1 Hle2 Hb2 Ho Hin Hle3 Hb3 Hd3 Hle4 Hb4 Hend
    Hbz Haz.
  assert (In o ["("; ")"; "+"; "-"; "*"; "/"; "^"; "!"]%char) as Hin8
    by (cbn [In] in *; tauto).
  destruct (get_token_from line 0 p0 ltac:(lia) Hb0 ltac:(rewrite Hm; reflexivity))
    as [T0 Hs0].
  destruct (get_token_from line (p0 + 1) p1 Hle1 Hb1
              (proj2 (digit_first_byte _ Hd1))) as [T1 Hs1].
  assert (token_start line p2 = p2) as Hs2.
  { apply token_start_here. rewrite Ho. cbn [In] in Hin.
    destruct Hin as [<-|[<-|[<-|[<-|[<-|[]]]]]]; reflexivity. }
  destruct (get_token_single_at line p2 o Hs2 Ho Hin8) as [Htok2 Hnb2].
  rewrite <- Ho in Hnb2.
  destruct (get_token_from line q1 p2 Hle2 Hb2 Hnb2) as [T2 _].
  destruct (get_token_from line (p2 + 1) p3 Hle3 Hb3
              (proj2 (digit_first_byte _ Hd3))) as [T3 Hs3].
  destruct (get_token_from line q3 e Hle4 Hb4 (line_end_not_blank _ _ Hend))
    as [T4 Hs4].
  rewrite (proj1 (get_token_single_at line p0 _ Hs0 Hm ltac:(cbn [In]; tauto))) in T0.
  change (single_kind "-") with NT_Subtract in T0.
  rewrite (get_token_number_at line p1 Hs1 Hd1) in T1.
  rewrite Htok2 in T2.
  rewrite (get_token_number_at line p3 Hs3 Hd3) in T3.
  rewrite (get_token_newline_at line e Hs4 Hend) in T4.
  fold a q1 in T1. fold b q3 in T3.
  pose proof (number_consumes line p1 Hd1) as Hn1.
  pose proof (digit_in_line line p3 Hd3) as Hlen.
  unfold evaluate_line, initial.
  replace (S (List.length line)) with (5 + (List.length line - 4))%nat
    by (unfold q1 in *; lia).
  apply run_more_fuel.
  clear Htok2 Hnb2 Hs0 Hs1 Hs2 Hs3 Hs4 Hin8 Ho.
  set (x0 := uint32 (Z.of_nat p0)) in *. set (x1 := uint32 (Z.of_nat p1)) in *.
  set (x2 := uint32 (Z.of_nat p2)) in *. set (x3 := uint32 (Z.of_nat p3)) in *.
  set (x4 := uint32 (Z.of_nat e)) in *.
  clearbody a b q1 q3 x0 x1 x2 x3 x4.
  erewrite run_goto by (eapply step_minus; [exact T0|simpl; lia]).
  erewrite run_goto by (eapply step_number; [exact T1|simpl; lia]).
  cbn [In] in Hin.
  destruct Hin as [<-|[<-|[<-|[<-|[<-|[]]]]]];
    cbv beta iota delta [single_kind Ascii.eqb Bool.eqb] in T2;
    (erewrite run_goto
       by (eapply step_binary; [exact T2|reflexivity|reflexivity|simpl; lia]));
    (erewrite run_goto by (eapply step_number; [exact T3|simpl; lia]));
    (erewrite run_return
       by (eapply step_newline;
           [exact T4|reflexivity
           |cbn [fold_loop fold_oper binary_operands type get_prec right left
                 Z.ltb Z.compare Pos.compare Pos.compare_cont];
            rewrite ?Hbz, ?Haz;
            cbn [fold_loop fold_oper binary_operands type get_prec right left
                 Z.ltb Z.compare Pos.compare Pos.compare_cont];
            reflexivity
           |reflexivity]));
    reflexivity.
Qed.

Lemma X19_unary_minus_line_witness :
  evaluate_line pow_by_multiplication (fun x => x) seeded (bytes "-2^2")
  = Some (Return (Real (-4))).
Proof.
  apply (X19_unary_minus_line pow_by_multiplication (fun x => x) seeded
           (bytes "-2^2") 0 1 2 3 4 "^"%char);
    try (intros k Hk; vm_compute in Hk; lia);
    try reflexivity; try (vm_compute; lia);
    try (left; reflexivity); try (cbn [In]; tauto).
Defined.

(** X20. One value per pending operator.  In every state
    [evaluate_line] passes through, the value stack holds one value for
    each binary operator on the operator stack, and one more when an
    operator is expected; the cursor is inside the line or at its end.
    So each fold finds its operands, and at the end of a well-formed
    line, when only the sentinel is left, exactly one value is. *)
Theorem X20_stack_balance
  (pow : float -> float -> float) (tgamma : float -> float)
  (symbols : SymbolTable) (line : list ascii) (c : Label * State) :
  reachable pow tgamma symbols line c ->
  List.length (stack (snd c))
  = (binary_count (opers (snd c)) + owed (fst c))%nat
  /\ (it (snd c) <= List.length line)%nat
  /\ (List.length (opers (snd c)) = 1%nat ->
      fst c = L_ExpectOperator ->
      exists v, stack (snd c) = [v]).
Proof.
  intros Hreach.
  destruct (reachable_invariant pow tgamma symbols line c Hreach)
    as [Hshape Hbal _ _ Hit].
  split; [exact Hbal|]. split; [exact Hit|].
  intros Hone Hlabel. rewrite Hlabel in Hbal. cbn [owed] in Hbal.
  pose proof (binary_count_lt _ Hshape) as Hcount.
  destruct (stack (snd c)) as [|v [|w stk]]; cbn [List.length] in Hbal; try lia.
  exists v. reflexivity.
Qed.

Lemma X20_stack_balance_witness :
  exists v, [Real 1%float] = [v].
Proof.
  refine (proj2 (proj2
    (X20_stack_balance pow_by_multiplication (fun x => x) seeded (bytes "1+2")
       (L_ExpectOperator, mkState 1 [mkNode NT_Global 0 0 U_zero] [Real 1%float]) _))
    eq_refl eq_refl).
  apply (reachable_step _ _ _ _ initial); [apply reachable_initial|].
  vm_compute. reflexivity.
Defined.

(** ** Parentheses *)

Lemma single_not_blank o :
  In o ["("; ")"; "+"; "-"; "*"; "/"; "^"; "!"]%char -> is_blank o = false.
Proof.
  cbn [In]. intros [<-|[<-|[<-|[<-|[<-|[<-|[<-|[<-|[]]]]]]]]]; reflexivity.
Qed.

Lemma get_token_byte line i o :
  nth i line NUL = o ->
  In o ["("; ")"; "+"; "-"; "*"; "/"; "^"; "!"]%char ->
  get_token line i
  = (mkNode (single_kind o) 0 (uint32 (Z.of_nat i)) U_zero, (i + 1)%nat).
Proof.
  intros Hbyte Hin.
  apply (get_token_single_at line i o); [|exact Hbyte|exact Hin].
  apply token_start_here. rewrite Hbyte. exact (single_not_blank o Hin).
Qed.

Section Nesting.

Variable pow : float -> float -> float.
Variable tgamma : float -> float.
Variable symbols : SymbolTable.
Variable line : list ascii.

Lemma step_open i ops stk :
  nth i line NUL = "("%char ->
  (List.length ops < 64)%nat ->
  step pow tgamma symbols line (L_ExpectValue, mkState i ops stk)
  = inr (L_ExpectValue,
         mkState (i + 1) (mkNode NT_OpenPar 0 (uint32 (Z.of_nat i)) U_zero :: ops) stk).
Proof.
  intros Hbyte Hlen. cbn [step fst snd]. unfold ExpectValue, push_oper.
  cbn [it opers stack].
  rewrite (get_token_byte line i _ Hbyte ltac:(cbn [In]; tauto)).
  change (single_kind "(") with NT_OpenPar. cbn [type].
  destruct (Nat.ltb_spec (List.length ops) 64); [reflexivity|lia].
Qed.

Lemma step_close i top ops stk :
  nth i line NUL = ")"%char ->
  type top = NT_OpenPar ->
  step pow tgamma symbols line (L_ExpectOperator, mkState i (top :: ops) stk)
  = inr (L_ExpectOperator, mkState (i + 1) ops stk).
Proof.
  intros Hbyte Htop. cbn [step fst snd]. unfold ExpectOperator.
  cbn [it opers stack].
  rewrite (get_token_byte line i _ Hbyte ltac:(cbn [In]; tauto)).
  change (single_kind ")") with NT_ClosePar. cbn [type fold_loop].
  rewrite Htop.
  change (right (get_prec NT_OpenPar) <? left (get_prec NT_ClosePar)) with true.
  cbv iota. rewrite Htop. reflexivity.
Qed.

(** [k] open parentheses are pushed one after the other. *)
Lemma run_opens k : forall i ops stk fuel,
  (forall t, (t < k)%nat -> nth (i + t) line NUL = "("%char) ->
  (List.length ops + k <= 64)%nat ->
  exists parens,
    List.length parens = k
    /\ Forall (fun n => type n = NT_OpenPar) parens
    /\ run pow tgamma symbols line (k + fuel) (L_ExpectValue, mkState i ops stk)
       = run pow tgamma symbols line fuel
           (L_ExpectValue, mkState (i + k) (parens ++ ops) stk).
Proof.
  induction k as [|k IH]; intros i ops stk fuel Hopen Hcap.
  - exists []. rewrite Nat.add_0_r. repeat split. constructor.
  - pose proof (Hopen 0%nat ltac:(lia)) as H0. rewrite Nat.add_0_r in H0.
    destruct (IH (i + 1)%nat
                (mkNode NT_OpenPar 0 (uint32 (Z.of_nat i)) U_zero :: ops) stk fuel)
      as (parens & Hlen & Hall & Hrun).
    { intros t Ht. replace (i + 1 + t)%nat with (i + S t)%nat by lia.
      apply Hopen. lia. }
    { cbn [List.length]. lia. }
    exists (parens ++ [mkNode NT_OpenPar 0 (uint32 (Z.of_nat i)) U_zero]).
    split; [rewrite length_app; cbn [List.length]; lia|].
    split.
    { apply Forall_app. split; [exact Hall|]. constructor; [reflexivity|constructor]. }
    cbn [Nat.add].
    rewrite (run_goto pow tgamma symbols line _ _ _ (step_open i ops stk H0 ltac:(lia))).
    rewrite Hrun, <- app_assoc. cbn [app].
    replace (i + 1 + k)%nat with (i + S k)%nat by lia. reflexivity.
Qed.

(** [j] closing parentheses pop [j] open ones. *)
Lemma run_closes j : forall i parens ops stk fuel,
  List.length parens = j ->
  Forall (fun n => type n = NT_OpenPar) parens ->
  (forall t, (t < j)%nat -> nth (i + t) line NUL = ")"%char) ->
  run pow tgamma symbols line (j + fuel) (L_ExpectOperator, mkState i (parens ++ ops) stk)
  = run pow tgamma symbols line fuel (L_ExpectOperator, mkState (i + j) ops stk).
Proof.
  induction j as [|j IH]; intros i parens ops stk fuel Hlen Hall Hclose.
  - destruct parens; [|discriminate]. rewrite Nat.add_0_r. reflexivity.
  - destruct parens as [|top parens]; [discriminate|].
    inversion Hall as [|? ? Htop Hrest]; subst.
    pose proof (Hclose 0%nat ltac:(lia)) as H0. rewrite Nat.add_0_r in H0.
    cbn [Nat.add app].
    rewrite (run_goto pow tgamma symbols line _ _ _
               (step_close i top (parens ++ ops) stk H0 Htop)).
    rewrite (IH (i + 1)%nat parens ops stk fuel).
    + replace (i + 1 + j)%nat with (i + S j)%nat by lia. reflexivity.
    + cbn [List.length] in Hlen. lia.
    + exact Hrest.
    + intros t Ht. replace (i + 1 + t)%nat with (i + S t)%nat by lia.
      apply Hclose. lia.
Qed.

End Nesting.

(** X21. Nested parentheses.  A number inside [k] open parentheses
    ([k] at most 63) followed by [j] closing ones, [j] at most [k], and
    the end of the line evaluates to the number when [j = k]; when fewer
    are closed than were opened the result is "parenthesis not closed"
    at the offset of the end of the line. *)
Theorem X21_nested_parentheses
  (pow : float -> float -> float) (tgamma : float -> float)
  (symbols : SymbolTable) (line : list ascii) (k j : nat) :
  let a := fst (strtod (skipn k line)) in
  let q := (k + snd (strtod (skipn k line)))%nat in
  (k <= 63)%nat -> (j <= k)%nat ->
  (forall t, (t < k)%nat -> nth t line NUL = "("%char) ->
  is_digit (nth k line NUL) = true ->
  (forall t, (t < j)%nat -> nth (q + t) line NUL = ")"%char) ->
  line_end line (q + j) ->
  evaluate_line pow tgamma symbols line
  = Some (Return (if (j =? k)%nat then Real a
                  else ERROR_VALUE "parenthesis not closed"
                         (uint32 (Z.of_nat (q + j))))).
Proof.
  intros a q Hk Hjk Hopen Hdigit Hclose Hend.
  pose proof (number_consumes line k Hdigit) as Hn.
  assert (q + j <= List.length line)%nat as Hlen.
  { destruct (Nat.eq_dec j 0) as [->|Hj].
    - pose proof (strtod_consumes (nth k line NUL) (skipn (S k) line) Hdigit) as Hc.
      pose proof (digit_in_line line k Hdigit) as Hin.
      rewrite <- (skipn_nth_cons line k Hin), length_skipn in Hc. unfold q. lia.
    - assert (q + (j - 1) < List.length line)%nat; [|lia].
      apply nth_in_line. rewrite (Hclose (j - 1)%nat ltac:(lia)). reflexivity. }
  unfold evaluate_line, initial.
  replace (S (List.length line))
    with (k + (1 + (j + (1 + (List.length line - (k + j + 1))))))%nat
    by (unfold q in *; lia).
  destruct (run_opens pow tgamma symbols line k 0 [mkNode NT_Global 0 0 U_zero] []
              (1 + (j + (1 + (List.length line - (k + j + 1)))))%nat)
    as (parens & Hplen & Hpall & Hrun).
  { intros t Ht. apply Hopen. exact Ht. }
  { cbn [List.length]. lia. }
  rewrite Hrun. cbn [Nat.add].
  assert (token_start line k = k) as Hs
    by (apply token_start_here; exact (proj2 (digit_first_byte _ Hdigit))).
  erewrite run_goto
    by (eapply step_number;
        [exact (get_token_number_at line k Hs Hdigit)|simpl; lia]).
  fold a q.
  pose proof Hpall as Hsplit. rewrite <- (firstn_skipn j parens) in Hsplit.
  apply Forall_app in Hsplit. destruct Hsplit as [Hfirst Hrest].
  rewrite <- (firstn_skipn j parens), <- app_assoc.
  rewrite (run_closes pow tgamma symbols line j q (firstn j parens));
    [|rewrite length_firstn; lia|exact Hfirst|exact Hclose].
  assert (token_start line (q + j) = (q + j)%nat) as Hs'
    by (apply token_start_here; exact (line_end_not_blank _ _ Hend)).
  pose proof (get_token_newline_at line (q + j) Hs' Hend) as Htok.
  cbn [run]. cbn [step fst snd]. unfold ExpectOperator. cbn [it opers stack].
  rewrite Htok. cbn [type pos].
  destruct (Nat.eqb_spec j k) as [->|Hne].
  - rewrite skipn_all2 by lia. reflexivity.
  - destruct (skipn j parens) as [|top rest] eqn:Eskip.
    + apply (f_equal (@List.length Node)) in Eskip.
      rewrite length_skipn in Eskip. cbn [List.length] in Eskip. lia.
    + assert (type top = NT_OpenPar) as Htop
        by (inversion Hrest; assumption).
      cbn [app fold_loop type]. rewrite Htop.
      change (right (get_prec NT_OpenPar) <? left (get_prec NT_Newline)) with true.
      cbv iota. cbn [List.length]. rewrite length_app. cbn [List.length].
      destruct (S (List.length rest + 1) =? 1)%nat eqn:E1; [|reflexivity].
      apply Nat.eqb_eq in E1. lia.
Qed.

Lemma X21_nested_parentheses_witness :
  evaluate_line pow_by_multiplication (fun x => x) seeded (bytes "((7))")
  = Some (Return (Real 7)).
Proof.
  apply (X21_nested_parentheses pow_by_multiplication (fun x => x) seeded
           (bytes "((7))") 2 2); try lia; try reflexivity.
  - intros t Ht. assert (t = 0 \/ t = 1)%nat as [E|E] by lia; subst t; reflexivity.
  - intros t Ht. vm_compute in Ht.
    assert (t = 0 \/ t = 1)%nat as [E|E] by lia; subst t; reflexivity.
  - left. reflexivity.
Defined.

(** X22. One closing parenthesis too many.  A number inside [k] open
    parentheses ([k] at most 63, zero included) followed by [k + 1]
    closing ones fails with "mismatched parenthesis" at the offset of
    the closing parenthesis that has no partner, whatever follows it. *)
Theorem X22_extra_closing_parenthesis
  (pow : float -> float -> float) (tgamma : float -> float)
  (symbols : SymbolTable) (line : list ascii) (k : nat) :
  let q := (k + snd (strtod (skipn k line)))%nat in
  (k <= 63)%nat ->
  (forall t, (t < k)%nat -> nth t line NUL = "("%char) ->
  is_digit (nth k line NUL) = true ->
  (forall t, (t < S k)%nat -> nth (q + t) line NUL = ")"%char) ->
  evaluate_line pow tgamma symbols line
  = Some (Return (ERROR_VALUE "mismatched parenthesis" (uint32 (Z.of_nat (q + k))))).
Proof.
  intros q Hk Hopen Hdigit Hclose.
  pose proof (number_consumes line k Hdigit) as Hn.
  assert (q + k < List.length line)%nat as Hlen.
  { apply nth_in_line. rewrite (Hclose k ltac:(lia)). reflexivity. }
  unfold evaluate_line, initial.
  replace (S (List.length line))
    with (k + (1 + (k + (1 + (List.length line - (k + k + 1))))))%nat
    by (unfold q in *; lia).
  destruct (run_opens pow tgamma symbols line k 0 [mkNode NT_Global 0 0 U_zero] []
              (1 + (k + (1 + (List.length line - (k + k + 1)))))%nat)
    as (parens & Hplen & Hpall & Hrun).
  { intros t Ht. apply Hopen. exact Ht. }
  { cbn [List.length]. lia. }
  rewrite Hrun. cbn [Nat.add].
  assert (token_start line k = k) as Hs
    by (apply token_start_here; exact (proj2 (digit_first_byte _ Hdigit))).
  erewrite run_goto
    by (eapply step_number;
        [exact (get_token_number_at line k Hs Hdigit)|simpl; lia]).
  fold q.
  rewrite (run_closes pow tgamma symbols line k q parens);
    [|exact Hplen|exact Hpall|intros t Ht; apply Hclose; lia].
  cbn [run]. cbn [step fst snd]. unfold ExpectOperator. cbn [it opers stack].
  rewrite (get_token_byte line (q + k) _ (Hclose k ltac:(lia)) ltac:(cbn [In]; tauto)).
  reflexivity.
Qed.

Lemma X22_extra_closing_parenthesis_witness :
  evaluate_line pow_by_multiplication (fun x => x) seeded (bytes "(12))+1")
  = Some (Return (ERROR_VALUE "mismatched parenthesis" (uint32 4))).
Proof.
  apply (X22_extra_closing_parenthesis pow_by_multiplication (fun x => x) seeded
           (bytes "(12))+1") 1); try lia; try reflexivity.
  - intros t Ht. assert (t = 0)%nat as E by lia. subst t. reflexivity.
  - intros t Ht. assert (t = 0 \/ t = 1)%nat as [E|E] by lia; subst t; reflexivity.
Defined.

(** ** Power *)

(** X23. Power groups from the right.  A line [a ^ b ^ c] of three
    numbers evaluates to [pow(a, pow(b, c))]: the pending [^] is not
    folded when the second [^] arrives.  (Stated for [a] and [b] that do
    not compare below zero, so that the guard on the base does not
    fail.) *)
Theorem X23_power_chain
  (pow : float -> float -> float) (tgamma : float -> float)
  (symbols : SymbolTable) (line : list ascii) (p1 p2 p3 p4 p5 e : nat) :
  let a := fst (strtod (skipn p1 line)) in
  let q1 := (p1 + snd (strtod (skipn p1 line)))%nat in
  let b := fst (strtod (skipn p3 line)) in
  let q3 := (p3 + snd (strtod (skipn p3 line)))%nat in
  let c := fst (strtod (skipn p5 line)) in
  let q5 := (p5 + snd (strtod (skipn p5 line)))%nat in
  blank_between line 0 p1 -> is_digit (nth p1 line NUL) = true ->
  (q1 <= p2)%nat -> blank_between line q1 p2 -> nth p2 line NUL = "^"%char ->
  (p2 + 1 <= p3)%nat -> blank_between line (p2 + 1) p3 ->
  is_digit (nth p3 line NUL) = true ->
  (q3 <= p4)%nat -> blank_between line q3 p4 -> nth p4 line NUL = "^"%char ->
  (p4 + 1 <= p5)%nat -> blank_between line (p4 + 1) p5 ->
  is_digit (nth p5 line NUL) = true ->
  (q5 <= e)%nat -> blank_between line q5 e -> line_end line e ->
  (a <? 0)%float = false -> (b <? 0)%float = false ->
  evaluate_line pow tgamma symbols line = Some (Return (Real (pow a (pow b c)))).
Proof.
  intros a q1 b q3 c q5 Hb1 Hd1 Hle2 Hb2 Ho1 Hle3 Hb3 Hd3 Hle4 Hb4 Ho2
    Hle5 Hb5 Hd5 Hle6 Hb6 Hend Haz Hbz.
  destruct (get_token_from line 0 p1 ltac:(lia) Hb1
              (proj2 (digit_first_byte _ Hd1))) as [T1 Hs1].
  destruct (get_token_from line q1 p2 Hle2 Hb2 ltac:(rewrite Ho1; reflexivity))
    as [T2 Hs2].
  destruct (get_token_from line (p2 + 1) p3 Hle3 Hb3
              (proj2 (digit_first_byte _ Hd3))) as [T3 Hs3].
  destruct (get_token_from line q3 p4 Hle4 Hb4 ltac:(rewrite Ho2; reflexivity))
    as [T4 Hs4].
  destruct (get_token_from line (p4 + 1) p5 Hle5 Hb5
              (proj2 (digit_first_byte _ Hd5))) as [T5 Hs5].
  destruct (get_token_from line q5 e Hle6 Hb6 (line_end_not_blank _ _ Hend))
    as [T6 Hs6].
  rewrite (get_token_number_at line p1 Hs1 Hd1) in T1.
  rewrite (proj1 (get_token_single_at line p2 _ Hs2 Ho1 ltac:(cbn [In]; tauto))) in T2.
  rewrite (get_token_number_at line p3 Hs3 Hd3) in T3.
  rewrite (proj1 (get_token_single_at line p4 _ Hs4 Ho2 ltac:(cbn [In]; tauto))) in T4.
  rewrite (get_token_number_at line p5 Hs5 Hd5) in T5.
  rewrite (get_token_newline_at line e Hs6 Hend) in T6.
  change (single_kind "^") with NT_Power in T2, T4.
  fold a q1 in T1. fold b q3 in T3. fold c q5 in T5.
  pose proof (number_consumes line p1 Hd1) as Hn1.
  pose proof (number_consumes line p3 Hd3) as Hn3.
  pose proof (digit_in_line line p5 Hd5) as Hlen.
  unfold evaluate_line, initial.
  replace (S (List.length line)) with (6 + (List.length line - 5))%nat
    by (unfold q1, q3 in *; lia).
  apply run_more_fuel.
  clear Hs1 Hs2 Hs3 Hs4 Hs5 Hs6 Ho1 Ho2.
  set (x1 := uint32 (Z.of_nat p1)) in *. set (x2 := uint32 (Z.of_nat p2)) in *.
  set (x3 := uint32 (Z.of_nat p3)) in *. set (x4 := uint32 (Z.of_nat p4)) in *.
  set (x5 := uint32 (Z.of_nat p5)) in *. set (x6 := uint32 (Z.of_nat e)) in *.
  clearbody a b c q1 q3 q5 x1 x2 x3 x4 x5 x6.
  erewrite run_goto by (eapply step_number; [exact T1|simpl; lia]).
  erewrite run_goto
    by (eapply step_binary; [exact T2|reflexivity|reflexivity|simpl; lia]).
  erewrite run_goto by (eapply step_number; [exact T3|simpl; lia]).
  erewrite run_goto
    by (eapply step_binary; [exact T4|reflexivity|reflexivity|simpl; lia]).
  erewrite run_goto by (eapply step_number; [exact T5|simpl; lia]).
  erewrite run_return
    by (eapply step_newline;
        [exact T6|reflexivity
        |cbn [fold_loop fold_oper binary_operands type get_prec right left
              Z.ltb Z.compare Pos.compare Pos.compare_cont];
         rewrite Hbz;
         cbn [fold_loop fold_oper binary_operands type get_prec right left
              Z.ltb Z.compare Pos.compare Pos.compare_cont];
         rewrite Haz; reflexivity
        |reflexivity]).
  reflexivity.
Qed.

Lemma X23_power_chain_witness :
  evaluate_line pow_by_multiplication (fun x => x) seeded (bytes "2^3^2")
  = Some (Return (Real 512)).
Proof.
  apply (X23_power_chain pow_by_multiplication (fun x => x) seeded
           (bytes "2^3^2") 0 1 2 3 4 5);
    try (intros k Hk; vm_compute in Hk; lia);
    try reflexivity; try (vm_compute; lia); left; reflexivity.
Defined.
